(** * pybot slash commands: a shallow embedding of
      [pybot/endpoints/slack/commands.py]

    The handlers are asynchronous Python functions that talk to three
    outside parties: the Slack client ([slack.query]), the aiohttp
    session ([app.http_session.get]) and the [random] module.  They are
    embedded as computations in a reader/state/exception monad:
      - the environment [Env] holds the answers of the outside parties;
      - the state [World] logs every request issued to the Slack client
        and counts the random draws;
      - a computation ends in [Ok v] (the coroutine returned [v]) or in
        [Raise e] (the exception [e] left the coroutine).
    Within one invocation every step is sequential, so [await] is plain
    monadic sequencing.  Calls to [logger] have no effect on the
    modelled state and are left out. *)

From Stdlib Require Import ZArith List String Ascii Bool Lia DecimalString.
From Stdlib Require Import DecimalPos.
Import ListNotations.
Local Open Scope string_scope.
Local Open Scope Z_scope.

Set Warnings "-register-all".

(** ** Python values, exceptions and results *)

(** The JSON-like values that travel in payloads and responses. *)
Inductive value : Type :=
| VNone
| VBool (b : bool)
| VInt (z : Z)
| VStr (s : string)
| VList (l : list value)
| VDict (d : list (string * value)).

(** The exception classes that matter for the handlers.  [SlackAPIError]
    stands for the class and its subclasses; [HTTPException] is the Slack
    client's transport failure, which is not a [SlackAPIError];
    [ClientResponseError] is what aiohttp's [raise_for_status] raises;
    [ClientError] stands for any other failure of the HTTP session. *)
Inductive exn : Type :=
| SlackAPIError
| HTTPException
| ValueError
| KeyError
| TypeError
| IndexError
| ClientResponseError
| ClientError.

Inductive result (A : Type) : Type :=
| Ok (a : A)
| Raise (e : exn).
Arguments Ok {A} a.
Arguments Raise {A} e.

Definition exn_eqb (a b : exn) : bool :=
  match a, b with
  | SlackAPIError, SlackAPIError | HTTPException, HTTPException
  | ValueError, ValueError | KeyError, KeyError | TypeError, TypeError
  | IndexError, IndexError | ClientResponseError, ClientResponseError
  | ClientError, ClientError => true
  | _, _ => false
  end.

(** ** The Slack client, the HTTP session and the world *)

(** [slack.methods]: the members the handlers name, and any other one
    that [get_slash_repeat_messages] may select. *)
Inductive method : Type :=
| CHAT_POST_MESSAGE
| CHAT_POST_EPHEMERAL
| DIALOG_OPEN
| USERS_INFO
| OTHER_METHOD (name : string).

Definition is_post_message (m : method) : bool :=
  match m with CHAT_POST_MESSAGE => true | _ => false end.

(** One request to the Slack API: the method and the data dictionary. *)
Definition call : Type := (method * value)%type.

(** The keyword arguments of [http_session.get]. *)
Record HttpRequest : Type := mkRequest {
  url : string;
  params : list (string * string);
  headers : list (string * string)
}.

(** What the handlers read from an aiohttp response: [r.status] and the
    outcome of [await r.json()]. *)
Record HttpResponse : Type := mkResponse {
  status : Z;
  json : result value
}.

(** The outside world's answers.  The Slack client sees the requests
    issued so far, so it may accept one request and refuse the next. *)
Record Env : Type := mkEnv {
  slack_api : list call -> method -> value -> result value;
  http_get : HttpRequest -> result HttpResponse;
  entropy : nat -> nat
}.

Record World : Type := mkWorld {
  sent : list call;
  draws : nat
}.

Definition M (A : Type) : Type := Env -> World -> result A * World.

Definition ret {A} (a : A) : M A := fun _ w => (Ok a, w).

Definition raise {A} (e : exn) : M A := fun _ w => (Raise e, w).

Definition bind {A B} (m : M A) (k : A -> M B) : M B :=
  fun env w =>
    match m env w with
    | (Ok a, w') => k a env w'
    | (Raise e, w') => (Raise e, w')
    end.

(** [try: m except e: h] *)
Definition try_except {A} (m : M A) (e : exn) (h : M A) : M A :=
  fun env w =>
    match m env w with
    | (Ok a, w') => (Ok a, w')
    | (Raise e', w') => if exn_eqb e' e then h env w' else (Raise e', w')
    end.

Definition lift {A} (r : result A) : M A := fun _ w => (r, w).

Declare Scope py_scope.
Delimit Scope py_scope with py.
Notation "x <- m ;; k" := (bind m (fun x => k))
  (at level 61, m at next level, right associativity) : py_scope.
Notation "' ( x , y ) <- m ;; k" := (bind m (fun p => let '(x, y) := p in k))
  (at level 61, x name, y name, m at next level, right associativity) : py_scope.
Local Open Scope py_scope.

(** [await slack.query(method, data)]: the request is logged, the client
    answers or raises. *)
Definition query (m : method) (data : value) : M value :=
  fun env w =>
    (slack_api env (sent w) m data,
     {| sent := sent w ++ [(m, data)]; draws := draws w |}).

(** [async with app.http_session.get(...) as r]: the session answers
    with a response or raises. *)
Definition session_get (req : HttpRequest) : M HttpResponse :=
  fun env w => (http_get env req, w).

(** [random.randint(a, b)]: an integer of the closed interval [a..b],
    chosen by the next draw of the environment's entropy; [ValueError]
    on an empty interval. *)
Definition randint (a b : Z) : M Z :=
  fun env w =>
    if b <? a then (Raise ValueError, w)
    else (Ok (a + Z.of_nat (entropy env (draws w)) mod (b - a + 1)),
          {| sent := sent w; draws := S (draws w) |}).

(** ** Dictionaries and subscripts *)

Fixpoint assoc (k : string) (d : list (string * value)) : option value :=
  match d with
  | [] => None
  | (k', v) :: d' => if String.eqb k k' then Some v else assoc k d'
  end.

(** [v[k]] for a string key. *)
Definition getitem (v : value) (k : string) : result value :=
  match v with
  | VDict d => match assoc k d with Some x => Ok x | None => Raise KeyError end
  | _ => Raise TypeError
  end.

(** [len(v)] *)
Definition py_len (v : value) : result Z :=
  match v with
  | VList l => Ok (Z.of_nat (List.length l))
  | VDict d => Ok (Z.of_nat (List.length d))
  | VStr s => Ok (Z.of_nat (String.length s))
  | _ => Raise TypeError
  end.

(** ** Strings: [str.lower], [str.split], [int], [str] *)

(** Command texts are modelled as strings of ASCII characters. *)
Definition ascii_char (c : ascii) : bool := (nat_of_ascii c <? 128)%nat.

Fixpoint ascii_text (s : string) : bool :=
  match s with
  | EmptyString => true
  | String c r => ascii_char c && ascii_text r
  end.

Definition lower_char (c : ascii) : ascii :=
  let n := nat_of_ascii c in
  if ((65 <=? n) && (n <=? 90))%nat then ascii_of_nat (n + 32) else c.

Fixpoint lower (s : string) : string :=
  match s with
  | EmptyString => EmptyString
  | String c r => String (lower_char c) (lower r)
  end.

(** [s.split(sep)] for a one-character separator: the pieces between the
    occurrences of [sep], in order; never empty. *)
Fixpoint split_on (sep : ascii) (s : string) : list string :=
  match s with
  | EmptyString => [EmptyString]
  | String c r =>
      if Ascii.eqb c sep then EmptyString :: split_on sep r
      else match split_on sep r with
           | p :: ps => String c p :: ps
           | [] => [String c EmptyString]
           end
  end.

(** The whitespace [int] skips in an ASCII string: tab, line feed,
    vertical tab, form feed, carriage return and space. *)
Definition is_space (c : ascii) : bool :=
  let n := nat_of_ascii c in
  (((9 <=? n) && (n <=? 13)) || (n =? 32))%nat.

Definition is_digit (c : ascii) : bool :=
  let n := nat_of_ascii c in ((48 <=? n) && (n <=? 57))%nat.

Definition digit_value (c : ascii) : Z := Z.of_nat (nat_of_ascii c) - 48.

Definition is_underscore (c : ascii) : bool := Ascii.eqb c "_"%char.

Fixpoint lstrip (s : string) : string :=
  match s with
  | String c r => if is_space c then lstrip r else s
  | EmptyString => EmptyString
  end.

Fixpoint all_space (s : string) : bool :=
  match s with
  | EmptyString => true
  | String c r => is_space c && all_space r
  end.

(** The digit part of a decimal literal: digits, with single underscores
    between them.  [prev_us] tells that the previous character was an
    underscore, [seen] that a character was consumed.  The result is the
    value read and the rest of the string. *)
Fixpoint scan_digits (s : string) (prev_us seen : bool) (acc : Z)
  : option (Z * string) :=
  match s with
  | String c r =>
      if is_digit c then scan_digits r false true (10 * acc + digit_value c)
      else if is_underscore c then
        if prev_us then None else scan_digits r true true acc
      else if prev_us then None
      else if seen then Some (acc, s) else None
  | EmptyString =>
      if prev_us then None
      else if seen then Some (acc, EmptyString) else None
  end.

(** The optional sign in front of the digits. *)
Definition split_sign (s : string) : Z * string :=
  match s with
  | String c r =>
      if Ascii.eqb c "+"%char then (1, r)
      else if Ascii.eqb c "-"%char then (-1, r)
      else (1, s)
  | EmptyString => (1, s)
  end.

Definition starts_with_underscore (s : string) : bool :=
  match s with
  | String c _ => is_underscore c
  | EmptyString => false
  end.

(** [int(s)] on an ASCII string, as CPython 3.7 reads a decimal literal:
    optional whitespace, an optional sign, the digit part (which may not
    start with an underscore), optional whitespace; anything else is a
    [ValueError]. *)
Definition py_int (s : string) : result Z :=
  let '(sign, s2) := split_sign (lstrip s) in
  if starts_with_underscore s2 then Raise ValueError
  else
    match scan_digits s2 false false 0 with
    | Some (n, rest) =>
        if all_space rest then Ok (sign * n) else Raise ValueError
    | None => Raise ValueError
    end.

Fixpoint has_char (c : ascii) (s : string) : bool :=
  match s with
  | EmptyString => false
  | String c' r => Ascii.eqb c' c || has_char c r
  end.

(** [str(z)] for an integer. *)
Definition str_of_int (z : Z) : string := NilZero.string_of_int (Z.to_int z).

Fixpoint join (sep : string) (l : list string) : string :=
  match l with
  | [] => EmptyString
  | [x] => x
  | x :: xs => x ++ sep ++ join sep xs
  end.

(** [str(l)] for a list of integers: ["[1, 2, 3]"]. *)
Definition str_of_int_list (l : list Z) : string :=
  "[" ++ join ", " (map str_of_int l) ++ "]".

(** ** Commands *)

Record Command : Type := mkCommand {
  channel_id : string;
  user_id : string;
  user_name : string;
  text : string;
  trigger_id : string;
  command : string
}.

Definition handler : Type := Command -> M unit.

(** ** [catch_slack_error] *)

Definition fallback_text (cmd : Command) : string :=
  "Could not post result of `" ++ command cmd ++ "` to channel <#"
    ++ channel_id cmd ++ ">".

Definition fallback_payload (cmd : Command) : value :=
  VDict [("user", VStr (user_id cmd));
         ("channel", VStr (user_id cmd));
         ("as_user", VBool true);
         ("text", VStr (fallback_text cmd))].

Definition catch_slack_error (func : handler) : handler :=
  fun cmd =>
    try_except (func cmd) SlackAPIError
      (_ <- query CHAT_POST_EPHEMERAL (fallback_payload cmd) ;; ret tt).

(** ** [/roll] *)

Definition roll_help_text : string :=
  "Sorry, I didn't understand your input. "
  ++ "Should be XDYY where X is the number of dice, and YY is the number of sides".

Definition roll_help_payload (cmd : Command) : value :=
  VDict [("user", VStr (user_id cmd));
         ("channel", VStr (channel_id cmd));
         ("text", VStr roll_help_text)].

(** [numdice, typedice = text.split("d")] followed by the two [int]
    conversions: unpacking anything but two pieces is a [ValueError]. *)
Definition roll_ints (txt : string) : result (Z * Z) :=
  match split_on "d" (lower txt) with
  | [a; b] =>
      match py_int a with
      | Ok numdice =>
          match py_int b with
          | Ok typedice => Ok (numdice, typedice)
          | Raise e => Raise e
          end
      | Raise e => Raise e
      end
  | _ => Raise ValueError
  end.

(** The body of the [try] block. *)
Definition roll_parse (txt : string) : result (Z * Z) :=
  match roll_ints txt with
  | Ok (numdice, typedice) =>
      if (numdice <=? 0) || (numdice >? 10) then Raise ValueError
      else if (typedice <=? 0) || (typedice >? 20) then Raise ValueError
      else Ok (numdice, typedice)
  | Raise e => Raise e
  end.

(** [for _ in range(0, numdice): dice.append(random.randint(1, typedice + 1))] *)
Fixpoint roll_dice (n : nat) (typedice : Z) (dice : list Z) : M (list Z) :=
  match n with
  | O => ret dice
  | S n' => d <- randint 1 (typedice + 1) ;; roll_dice n' typedice (dice ++ [d])
  end.

Definition roll_message (cmd : Command) (numdice typedice : Z) (dice : list Z)
  : string :=
  "<@" ++ user_id cmd ++ "> Rolled " ++ str_of_int numdice ++ " D"
    ++ str_of_int typedice ++ ": " ++ str_of_int_list dice.

Definition roll_payload (cmd : Command) (numdice typedice : Z) (dice : list Z)
  : value :=
  VDict [("channel", VStr (channel_id cmd));
         ("text", VStr (roll_message cmd numdice typedice dice))].

Definition slash_roll_body : handler :=
  fun cmd =>
    match roll_parse (text cmd) with
    | Raise ValueError =>
        _ <- query CHAT_POST_EPHEMERAL (roll_help_payload cmd) ;;
        ret tt
    | Raise e => raise e
    | Ok (numdice, typedice) =>
        dice <- roll_dice (Z.to_nat numdice) typedice [] ;;
        _ <- query CHAT_POST_MESSAGE (roll_payload cmd numdice typedice dice) ;;
        ret tt
    end.

Definition slash_roll : handler := catch_slack_error slash_roll_body.

(** * Vocabulary of the properties *)

(** ** Outcomes and requests *)

Definition outcome {A} (m : M A) (env : Env) (w : World) : result A :=
  fst (m env w).

(** The requests on record after [m] has run from [w]. *)
Definition requests {A} (m : M A) (env : Env) (w : World) : list call :=
  sent (snd (m env w)).

(** What the Slack client answers to the request [c] when [hist] are the
    requests it has seen. *)
Definition answer (env : Env) (hist : list call) (c : call) : result value :=
  slack_api env hist (fst c) (snd c).

Definition accepted (env : Env) (hist : list call) (c : call) : Prop :=
  exists resp, answer env hist c = Ok resp.

(** The outcome of a handler whose last step is the request [c]. *)
Definition outcome_of_answer (r : result value) : result unit :=
  match r with
  | Ok _ => Ok tt
  | Raise e => Raise e
  end.

Definition post_messages (l : list call) : list call :=
  filter (fun c => is_post_message (fst c)) l.

Definition fallback_call (cmd : Command) : call :=
  (CHAT_POST_EPHEMERAL, fallback_payload cmd).

Definition log (w : World) (c : call) : World :=
  {| sent := sent w ++ [c]; draws := draws w |}.

(** ** Well-formed and malformed [/roll] texts *)

(** The text parses as [N]d[S] with both numbers in range. *)
Definition well_formed_roll (txt : string) (N S : Z) : Prop :=
  roll_ints txt = Ok (N, S) /\ 1 <= N <= 10 /\ 1 <= S <= 20.

Definition malformed_roll (txt : string) : Prop :=
  forall N S, ~ well_formed_roll txt N S.

Definition roll_call (cmd : Command) (N S : Z) (dice : list Z) : call :=
  (CHAT_POST_MESSAGE,
   VDict [("channel", VStr (channel_id cmd));
          ("text", VStr ("<@" ++ user_id cmd ++ "> Rolled " ++ str_of_int N
                           ++ " D" ++ str_of_int S ++ ": "
                           ++ str_of_int_list dice))]).

Definition help_call (cmd : Command) : call :=
  (CHAT_POST_EPHEMERAL,
   VDict [("user", VStr (user_id cmd));
          ("channel", VStr (channel_id cmd));
          ("text", VStr roll_help_text)]).

(** ** Counting, dice and numerals *)

(** The number of occurrences of [c] in [s]. *)
Fixpoint count_char (c : ascii) (s : string) : nat :=
  match s with
  | EmptyString => O
  | String c' r => if Ascii.eqb c' c then S (count_char c r) else count_char c r
  end.

(** The command with another text. *)
Definition with_text (cmd : Command) (txt : string) : Command :=
  {| channel_id := channel_id cmd; user_id := user_id cmd;
     user_name := user_name cmd; text := txt; trigger_id := trigger_id cmd;
     command := command cmd |}.

(** The values of [n] dice of type [typedice] when the draws start at
    position [start] of the entropy. *)
Definition dice_of (env : Env) (start : nat) (typedice : Z) (n : nat)
  : list Z :=
  map (fun i => 1 + Z.of_nat (entropy env (start + i)) mod (typedice + 1))
    (seq 0 n).

(** The value of a decimal numeral read from the left, [acc] being the
    value of the digits already read. *)
Fixpoint uint_value (d : Decimal.uint) (acc : Z) : Z :=
  match d with
  | Decimal.Nil => acc
  | Decimal.D0 d => uint_value d (10 * acc)
  | Decimal.D1 d => uint_value d (10 * acc + 1)
  | Decimal.D2 d => uint_value d (10 * acc + 2)
  | Decimal.D3 d => uint_value d (10 * acc + 3)
  | Decimal.D4 d => uint_value d (10 * acc + 4)
  | Decimal.D5 d => uint_value d (10 * acc + 5)
  | Decimal.D6 d => uint_value d (10 * acc + 6)
  | Decimal.D7 d => uint_value d (10 * acc + 7)
  | Decimal.D8 d => uint_value d (10 * acc + 8)
  | Decimal.D9 d => uint_value d (10 * acc + 9)
  end.

Definition in_roll_range (N S : Z) : bool :=
  (1 <=? N) && (N <=? 10) && (1 <=? S) && (S <=? 20).

(** ** Requests of the other handlers *)

Definition users_info_call (cmd : Command) : call :=
  (USERS_INFO, VDict [("user", VStr (user_id cmd))]).

(** [user_info["user"]["profile"]["email"]] *)
Definition profile_email (user_info : value) : result value :=
  match getitem user_info "user" with
  | Ok user =>
      match getitem user "profile" with
      | Ok profile => getitem profile "email"
      | Raise e => Raise e
      end
  | Raise e => Raise e
  end.

(** The same command, handled twice in a row. *)
Definition twice (h : handler) : handler :=
  fun cmd => _ <- h cmd ;; h cmd.

(** ** Sample worlds *)

Definition fresh_world : World := {| sent := []; draws := 0 |}.

(** A Slack client that accepts every request and stamps it. *)
Definition obliging_slack : list call -> method -> value -> result value :=
  fun _ _ _ => Ok (VDict [("ok", VBool true); ("ts", VStr "1546300800.000200")]).

(** A Slack client that refuses every request. *)
Definition refusing_slack : list call -> method -> value -> result value :=
  fun _ _ _ => Raise SlackAPIError.

Definition no_network : HttpRequest -> result HttpResponse :=
  fun _ => Raise ClientError.

Definition calm_env : Env :=
  {| slack_api := obliging_slack; http_get := no_network;
     entropy := fun n => n |}.

Definition outage_env : Env :=
  {| slack_api := refusing_slack; http_get := no_network;
     entropy := fun n => n |}.

(** Every draw is 20: the top of an interval of twenty-one members. *)
Definition high_env : Env :=
  {| slack_api := obliging_slack; http_get := no_network;
     entropy := fun _ => 20%nat |}.

Definition roll_command (txt : string) : Command :=
  {| channel_id := "C024BE91L"; user_id := "U2147483697";
     user_name := "steve"; text := txt; trigger_id := "13345224609.738474920";
     command := "/roll" |}.

(** A Slack client that refuses the first request it sees and accepts
    the later ones. *)
Definition picky_slack : list call -> method -> value -> result value :=
  fun hist m data =>
    match hist with
    | [] => Raise SlackAPIError
    | _ :: _ => obliging_slack hist m data
    end.

Definition picky_env : Env :=
  {| slack_api := picky_slack; http_get := no_network;
     entropy := fun n => n |}.

(** The world in which [/roll 2d6] has rolled 1 and 2 and issued its
    message. *)
Definition after_roll : World :=
  {| sent := [roll_call (roll_command "2d6") 2 6 [1; 2]]; draws := 2 |}.

(** A moderation service that knows one moderator, and one that is
    down. *)
Definition mods_found : HttpRequest -> result HttpResponse :=
  fun _ => Ok {| status := 200;
                 json := Ok (VList [VDict [("slack_id", VStr "U2147483697")]]) |}.

Definition mods_empty : HttpRequest -> result HttpResponse :=
  fun _ => Ok {| status := 200; json := Ok (VList []) |}.

Definition server_error : HttpRequest -> result HttpResponse :=
  fun _ => Ok {| status := 500; json := Raise ClientError |}.

Definition env_with (http : HttpRequest -> result HttpResponse) : Env :=
  {| slack_api := obliging_slack; http_get := http; entropy := fun n => n |}.

(** Stand-ins for the collaborators of [/here] and [/lunch]. *)
Definition sample_here_messages (slack_id channel text : string)
  : M (value * value) :=
  members <- query (OTHER_METHOD "conversations.members")
               (VDict [("channel", VStr channel)]) ;;
  ret (VStr ("<@" ++ slack_id ++ "> " ++ text), VStr "<@U1> <@U2>").

Definition sample_LunchCommand (channel user input_text name : string)
  : result string :=
  Ok input_text.

Definition sample_yelp_request (lunch : string) : result HttpRequest :=
  Ok {| url := "https://api.yelp.com/v3/businesses/search";
        params := [("term", lunch)];
        headers := [("Authorization", "Bearer token")] |}.

Definition sample_select_lunch (lunch : string) (body : value) : M value :=
  ret (VDict [("text", VStr lunch)]).

Definition here_command : Command :=
  {| channel_id := "C024BE91L"; user_id := "U2147483697";
     user_name := "steve"; text := "standup"; trigger_id := "13345224609.738474920";
     command := "/here" |}.

Definition lunch_command : Command :=
  {| channel_id := "C024BE91L"; user_id := "U2147483697";
     user_name := "steve"; text := "tacos"; trigger_id := "13345224609.738474920";
     command := "/lunch" |}.

(** A Slack client that knows the e-mail address of every user, and one
    whose profiles carry none. *)
Definition directory_slack : list call -> method -> value -> result value :=
  fun hist m data =>
    match m with
    | USERS_INFO =>
        Ok (VDict [("ok", VBool true);
                   ("user", VDict [("profile",
                                    VDict [("email", VStr "steve@example.com")])])])
    | _ => obliging_slack hist m data
    end.

Definition bare_profile_slack : list call -> method -> value -> result value :=
  fun hist m data =>
    match m with
    | USERS_INFO =>
        Ok (VDict [("ok", VBool true); ("user", VDict [("profile", VDict [])])])
    | _ => obliging_slack hist m data
    end.

(** A Slack client that refuses every [chat.postMessage] and accepts the
    other requests. *)
Definition no_posting_slack : list call -> method -> value -> result value :=
  fun hist m data =>
    match m with
    | CHAT_POST_MESSAGE => Raise SlackAPIError
    | _ => obliging_slack hist m data
    end.

(** A Slack client that accepts posts but returns no timestamp. *)
Definition unstamped_slack : list call -> method -> value -> result value :=
  fun _ _ _ => Ok (VDict [("ok", VBool true)]).

Definition slack_env (slack : list call -> method -> value -> result value)
  (http : HttpRequest -> result HttpResponse) : Env :=
  {| slack_api := slack; http_get := http; entropy := fun n => n |}.

(** A moderation service that answers with JSON [null], one that answers
    with a JSON object, and a restaurant search that finds something. *)
Definition mods_null : HttpRequest -> result HttpResponse :=
  fun _ => Ok {| status := 200; json := Ok VNone |}.

Definition mods_object : HttpRequest -> result HttpResponse :=
  fun _ => Ok {| status := 200;
                 json := Ok (VDict [("detail", VStr "Not found.")]) |}.

Definition yelp_found : HttpRequest -> result HttpResponse :=
  fun _ => Ok {| status := 200;
                 json := Ok (VDict [("businesses",
                                     VList [VDict [("name", VStr "Taqueria")]])]) |}.

(** The entropy that makes a twenty-sided die show 21, then 1. *)
Definition loaded_env : Env :=
  {| slack_api := obliging_slack; http_get := no_network;
     entropy := fun n => match n with O => 20%nat | _ => 0%nat end |}.

(** Stand-ins for the collaborators of the other handlers. *)
Definition sample_ticket_dialog (email : value) (text : string) : value :=
  VDict [("title", VStr "Ticket"); ("email", email); ("details", VStr text)].

Definition sample_attachment : value :=
  VDict [("text", VStr ""); ("callback_id", VStr "claimed")].

Definition sample_repeat_messages (slack_id channel text : string)
  : result (method * value) :=
  if String.eqb text "" then Raise KeyError
  else Ok (CHAT_POST_MESSAGE,
           VDict [("channel", VStr channel); ("text", VStr text)]).

Definition sample_get_all_records (table field : string) : M value :=
  ret (VList [VStr table; VStr field]).

Definition sample_mentor_attachments (services mentors skillsets : value)
  : value :=
  VList [services; mentors; skillsets].

Definition report_command : Command :=
  {| channel_id := "C024BE91L"; user_id := "U2147483697";
     user_name := "steve"; text := "spam in #general";
     trigger_id := "13345224609.738474920"; command := "/report" |}.

Definition ticket_command : Command :=
  {| channel_id := "C024BE91L"; user_id := "U2147483697";
     user_name := "steve"; text := "cannot log in";
     trigger_id := "13345224609.738474920"; command := "/ticket" |}.

Definition repeat_command (txt : string) : Command :=
  {| channel_id := "C024BE91L"; user_id := "U2147483697";
     user_name := "steve"; text := txt;
     trigger_id := "13345224609.738474920"; command := "/repeat" |}.

Definition mentor_command : Command :=
  {| channel_id := "C024BE91L"; user_id := "U2147483697";
     user_name := "steve"; text := "";
     trigger_id := "13345224609.738474920"; command := "/mentor" |}.

(** ** The handlers that use the repository's other modules

    [ticket_dialog], [not_claimed_attachment], [get_slash_here_messages],
    [get_slash_repeat_messages], the class [LunchCommand] and the
    constants of [pybot.endpoints.slack.utils] live in modules of their
    own; the handlers are embedded over them as parameters. *)

Section Handlers.

Set Default Proof Using "Type".

Variable PYBACK_HOST PYBACK_PORT PYBACK_TOKEN MODERATOR_CHANNEL : string.

Variable ticket_dialog : value -> string -> value.
Variable not_claimed_attachment : value.

(** [await get_slash_here_messages(slack_id, channel_id, slack, text)]:
    a coroutine that is handed the Slack client and returns the pair
    [(message, member_list)]. *)
Variable get_slash_here_messages : string -> string -> string -> M (value * value).

(** [get_slash_repeat_messages(slack_id, channel_id, text)] returns the
    pair [(method_type, message)]. *)
Variable get_slash_repeat_messages :
  string -> string -> string -> result (method * value).

(** The class [LunchCommand]: its constructor and the two methods the
    handler calls. *)
Variable Lunch : Type.
Variable LunchCommand : string -> string -> string -> string -> result Lunch.
Variable get_yelp_request : Lunch -> result HttpRequest.
Variable select_random_lunch : Lunch -> value -> M value.

(** *** [/ticket] *)

Definition slash_ticket_body : handler :=
  fun cmd =>
    user_info <- query USERS_INFO (VDict [("user", VStr (user_id cmd))]) ;;
    user <- lift (getitem user_info "user") ;;
    profile <- lift (getitem user "profile") ;;
    clicker_email <- lift (getitem profile "email") ;;
    _ <- query DIALOG_OPEN
           (VDict [("trigger_id", VStr (trigger_id cmd));
                   ("dialog", ticket_dialog clicker_email (text cmd))]) ;;
    ret tt.

Definition slash_ticket : handler := catch_slack_error slash_ticket_body.

(** *** [/report] *)

Definition slash_report_body : handler :=
  fun cmd =>
    let message :=
      "<@" ++ user_id cmd ++ "> sent report: " ++ text cmd in
    _ <- query CHAT_POST_MESSAGE
           (VDict [("text", VStr message);
                   ("channel", VStr MODERATOR_CHANNEL);
                   ("attachments", VList [not_claimed_attachment])]) ;;
    ret tt.

Definition slash_report : handler := catch_slack_error slash_report_body.

(** *** [/here] *)

Definition here_request (cmd : Command) : HttpRequest :=
  {| url := "http://" ++ PYBACK_HOST ++ ":" ++ PYBACK_PORT ++ "/api/mods/";
     params := [("slack_id", user_id cmd); ("channel_id", channel_id cmd)];
     headers := [("Authorization", "Token " ++ PYBACK_TOKEN)] |}.

Definition here_first_post (cmd : Command) (message : value) : value :=
  VDict [("channel", VStr (channel_id cmd)); ("text", message)].

Definition here_second_post (cmd : Command) (member_list timestamp : value)
  : value :=
  VDict [("channel", VStr (channel_id cmd));
         ("text", member_list);
         ("thread_ts", timestamp)].

Definition slash_here_body : handler :=
  fun cmd =>
    r <- session_get (here_request cmd) ;;
    if status r >=? 400 then ret tt
    else
      response <- lift (json r) ;;
      n <- lift (py_len response) ;;
      if n =? 0 then ret tt
      else
        '(message, member_list) <-
          get_slash_here_messages (user_id cmd) (channel_id cmd) (text cmd) ;;
        response <- query CHAT_POST_MESSAGE (here_first_post cmd message) ;;
        timestamp <- lift (getitem response "ts") ;;
        _ <- query CHAT_POST_MESSAGE
               (here_second_post cmd member_list timestamp) ;;
        ret tt.

Definition slash_here : handler := catch_slack_error slash_here_body.

(** *** [/lunch] *)

(** [r.raise_for_status()]: aiohttp raises [ClientResponseError] when
    the status is 400 or higher. *)
Definition raise_for_status (r : HttpResponse) : M unit :=
  if 400 <=? status r then raise ClientResponseError else ret tt.

Definition slash_lunch_body : handler :=
  fun cmd =>
    lunch <- lift (LunchCommand (channel_id cmd) (user_id cmd) (text cmd)
                     (user_name cmd)) ;;
    request <- lift (get_yelp_request lunch) ;;
    r <- session_get request ;;
    _ <- raise_for_status r ;;
    body <- lift (json r) ;;
    message_params <- select_random_lunch lunch body ;;
    _ <- query CHAT_POST_EPHEMERAL message_params ;;
    ret tt.

Definition slash_lunch : handler := catch_slack_error slash_lunch_body.

(** *** [/repeat] *)

Definition slash_repeat_body : handler :=
  fun cmd =>
    '(method_type, message) <-
      lift (get_slash_repeat_messages (user_id cmd) (channel_id cmd)
              (text cmd)) ;;
    _ <- query method_type message ;;
    ret tt.

Definition slash_repeat : handler := catch_slack_error slash_repeat_body.

(** *** The command registry *)

(** A [SlackPlugin] as far as [create_endpoints] uses it: the commands
    registered so far, each with its handler and its [wait] flag. *)
Definition SlackPlugin : Type := list (string * handler * bool).

Definition on_command (plugin : SlackPlugin) (name : string) (h : handler)
  (wait : bool) : SlackPlugin :=
  (plugin ++ [(name, h, wait)])%list.

Definition create_endpoints (plugin : SlackPlugin) : SlackPlugin :=
  let plugin := on_command plugin "/here" slash_here false in
  let plugin := on_command plugin "/lunch" slash_lunch false in
  let plugin := on_command plugin "/repeat" slash_repeat false in
  let plugin := on_command plugin "/report" slash_report false in
  let plugin := on_command plugin "/ticket" slash_ticket false in
  let plugin := on_command plugin "/roll" slash_roll false in
  plugin.

(** *** [/mentor] (defined, not registered) *)

(** [await airtable.get_all_records(table, field)], a coroutine of the
    Airtable plugin, and [mentor_request_attachments]. *)
Variable get_all_records : string -> string -> M value.
Variable mentor_request_attachments : value -> value -> value -> value.

Definition slash_mentor_body : handler :=
  fun cmd =>
    services <- get_all_records "Services" "Name" ;;
    mentors <- get_all_records "Mentors" "Full Name" ;;
    skillsets <- get_all_records "Skillsets" "Skillset" ;;
    let dialog := mentor_request_attachments services mentors skillsets in
    _ <- query CHAT_POST_MESSAGE
           (VDict [("attachments", dialog);
                   ("channel", VStr (user_id cmd));
                   ("as_user", VBool true)]) ;;
    ret tt.

Definition slash_mentor : handler := catch_slack_error slash_mentor_body.

(** *** The requests of these handlers *)

Definition report_call (cmd : Command) : call :=
  (CHAT_POST_MESSAGE,
   VDict [("text", VStr ("<@" ++ user_id cmd ++ "> sent report: " ++ text cmd));
          ("channel", VStr MODERATOR_CHANNEL);
          ("attachments", VList [not_claimed_attachment])]).

Definition dialog_call (cmd : Command) (email : value) : call :=
  (DIALOG_OPEN,
   VDict [("trigger_id", VStr (trigger_id cmd));
          ("dialog", ticket_dialog email (text cmd))]).

Definition here_first_call (cmd : Command) (message : value) : call :=
  (CHAT_POST_MESSAGE,
   VDict [("channel", VStr (channel_id cmd)); ("text", message)]).

Definition here_second_call (cmd : Command) (member_list ts : value) : call :=
  (CHAT_POST_MESSAGE,
   VDict [("channel", VStr (channel_id cmd)); ("text", member_list);
          ("thread_ts", ts)]).

Definition mentor_call (cmd : Command) (services mentors skillsets : value)
  : call :=
  (CHAT_POST_MESSAGE,
   VDict [("attachments", mentor_request_attachments services mentors skillsets);
          ("channel", VStr (user_id cmd));
          ("as_user", VBool true)]).

(** * Properties *)

(** ** Running computations *)

Lemma query_run (m : method) (data : value) (env : Env) (w : World) :
  query m data env w = (answer env (sent w) (m, data), log w (m, data)).
Proof. reflexivity. Qed.

Lemma bind_ok {A B} (m : M A) (k : A -> M B) env w a w' :
  m env w = (Ok a, w') -> bind m k env w = k a env w'.
Proof. intros H. unfold bind. now rewrite H. Qed.

Lemma bind_raise {A B} (m : M A) (k : A -> M B) env w e w' :
  m env w = (Raise e, w') -> bind m k env w = (Raise e, w').
Proof. intros H. unfold bind. now rewrite H. Qed.

(** ** [catch_slack_error] *)

Lemma catch_returns (func : handler) cmd env w w' :
  func cmd env w = (Ok tt, w') ->
  catch_slack_error func cmd env w = (Ok tt, w').
Proof. intros H. unfold catch_slack_error, try_except. now rewrite H. Qed.

Lemma catch_passes (func : handler) cmd env w e w' :
  func cmd env w = (Raise e, w') -> e <> SlackAPIError ->
  catch_slack_error func cmd env w = (Raise e, w').
Proof.
  intros H Hne. unfold catch_slack_error, try_except. rewrite H.
  destruct e; simpl; try reflexivity. now elim Hne.
Qed.

Lemma catch_handles (func : handler) cmd env w w' :
  func cmd env w = (Raise SlackAPIError, w') ->
  catch_slack_error func cmd env w =
    (outcome_of_answer (answer env (sent w') (fallback_call cmd)),
     log w' (fallback_call cmd)).
Proof.
  intros H. unfold catch_slack_error, try_except. rewrite H. simpl.
  unfold bind. rewrite query_run. unfold fallback_call.
  now destruct (answer env (sent w') _).
Qed.

(** ** Strings *)

Lemma space_not_digit c : is_space c = true ->
  is_digit c = false /\ is_underscore c = false /\ lower_char c = c
  /\ Ascii.eqb c "d" = false /\ Ascii.eqb c "+" = false
  /\ Ascii.eqb c "-" = false.
Proof.
  destruct c as [[] [] [] [] [] [] [] []]; vm_compute; intros H;
    try discriminate H; repeat split.
Qed.

Lemma append_assoc x y z : (x ++ y) ++ z = x ++ (y ++ z).
Proof. induction x as [|c x IH]; simpl; [reflexivity | now rewrite IH]. Qed.

Lemma lower_app x y : lower (x ++ y) = lower x ++ lower y.
Proof. induction x as [|c x IH]; simpl; [reflexivity | now rewrite IH]. Qed.

Lemma lower_space w : all_space w = true -> lower w = w.
Proof.
  induction w as [|c w IH]; simpl; [reflexivity|].
  intros H. apply andb_prop in H as [Hc Hw].
  apply space_not_digit in Hc as (_ & _ & -> & _). now rewrite IH.
Qed.

Lemma has_char_app c x y : has_char c (x ++ y) = has_char c x || has_char c y.
Proof.
  induction x as [|a x IH]; simpl; [reflexivity|].
  now rewrite IH, orb_assoc.
Qed.

Lemma space_has_no_d w : all_space w = true -> has_char "d" w = false.
Proof.
  induction w as [|c w IH]; simpl; [reflexivity|].
  intros H. apply andb_prop in H as [Hc Hw].
  apply space_not_digit in Hc as (_ & _ & _ & -> & _). now rewrite IH.
Qed.

Lemma all_space_app x y :
  all_space (x ++ y) = all_space x && all_space y.
Proof.
  induction x as [|a x IH]; simpl; [reflexivity|].
  now rewrite IH, andb_assoc.
Qed.

Lemma split_on_whole sep s : has_char sep s = false -> split_on sep s = [s].
Proof.
  induction s as [|c s IH]; simpl; [reflexivity|].
  intros H. apply orb_false_elim in H as [Hc Hs].
  rewrite Hc, (IH Hs). reflexivity.
Qed.

Lemma split_on_app sep x y :
  has_char sep x = false ->
  split_on sep (x ++ String sep y) = x :: split_on sep y.
Proof.
  induction x as [|c x IH]; simpl.
  - intros _. now rewrite Ascii.eqb_refl.
  - intros H. apply orb_false_elim in H as [Hc Hx].
    rewrite Hc, (IH Hx). reflexivity.
Qed.

Lemma lstrip_space_app w s : all_space w = true -> lstrip (w ++ s) = lstrip s.
Proof.
  induction w as [|c w IH]; simpl; [reflexivity|].
  intros H. apply andb_prop in H as [Hc Hw]. now rewrite Hc, IH.
Qed.

Lemma lstrip_app_tail s t c r :
  lstrip s = String c r -> lstrip (s ++ t) = String c (r ++ t).
Proof.
  induction s as [|a s IH]; simpl; [discriminate|].
  destruct (is_space a) eqn:Ha.
  - apply IH.
  - intros H. injection H as -> ->. reflexivity.
Qed.

(** Whitespace after a literal that [scan_digits] accepts, up to
    whitespace, is more whitespace for it. *)
Lemma scan_digits_app_space s t : all_space t = true ->
  forall prev_us seen acc n rest,
    scan_digits s prev_us seen acc = Some (n, rest) ->
    all_space rest = true ->
    exists rest', scan_digits (s ++ t) prev_us seen acc = Some (n, rest')
                  /\ all_space rest' = true.
Proof.
  intros Ht. induction s as [|c s IH]; intros prev_us seen acc n rest.
  - simpl. destruct prev_us; [discriminate|].
    destruct seen; [|discriminate]. intros H _. injection H as <- _.
    destruct t as [|c t]; simpl.
    + now exists "".
    + simpl in Ht. pose proof Ht as Ht'. apply andb_prop in Ht' as [Hc _].
      apply space_not_digit in Hc as (-> & -> & _).
      exists (String c t). split; [reflexivity | exact Ht].
  - simpl. destruct (is_digit c); [apply IH|].
    destruct (is_underscore c).
    + destruct prev_us; [discriminate | apply IH].
    + destruct prev_us; [discriminate|].
      destruct seen; [|discriminate].
      intros H Hrest. injection H as <- <-.
      exists (String c s ++ t). split; [reflexivity|].
      now rewrite all_space_app, Hrest, Ht.
Qed.

Lemma py_int_space_around w a w' n :
  all_space w = true -> all_space w' = true ->
  py_int a = Ok n -> py_int (w ++ a ++ w') = Ok n.
Proof.
  intros Hw Hw' Ha. unfold py_int in *. rewrite (lstrip_space_app _ _ Hw).
  destruct (lstrip a) as [|c r] eqn:Hl; [simpl in Ha; discriminate|].
  rewrite (lstrip_app_tail _ w' _ _ Hl).
  assert (Hsign : split_sign (String c (r ++ w')) =
                  (fst (split_sign (String c r)),
                   snd (split_sign (String c r)) ++ w')).
  { simpl. destruct (Ascii.eqb c "+"); [reflexivity|].
    destruct (Ascii.eqb c "-"); reflexivity. }
  rewrite Hsign. destruct (split_sign (String c r)) as [sign s2]. simpl.
  destruct s2 as [|c2 r2]; [simpl in Ha; discriminate|].
  simpl starts_with_underscore in *.
  destruct (is_underscore c2); [discriminate|].
  destruct (scan_digits (String c2 r2) false false 0) as [[m rest]|] eqn:Hs;
    [|discriminate].
  destruct (all_space rest) eqn:Hrest; [|discriminate].
  destruct (scan_digits_app_space _ _ Hw' _ _ _ _ _ Hs Hrest)
    as (rest' & Hs' & Hrest').
  change (String c2 (r2 ++ w')) with (String c2 r2 ++ w').
  now rewrite Hs', Hrest'.
Qed.

Lemma py_int_raises s e : py_int s = Raise e -> e = ValueError.
Proof.
  unfold py_int. destruct (split_sign (lstrip s)) as [sign s2].
  destruct (starts_with_underscore s2); [congruence|].
  destruct (scan_digits s2 false false 0) as [[n rest]|]; [|congruence].
  destruct (all_space rest); congruence.
Qed.

(** ** [/roll]: parsing *)

Lemma roll_ints_raises txt e : roll_ints txt = Raise e -> e = ValueError.
Proof.
  unfold roll_ints.
  destruct (split_on "d" (lower txt)) as [|a [|b [|c l]]]; try congruence.
  destruct (py_int a) eqn:Ha.
  - destruct (py_int b) eqn:Hb; [discriminate|].
    intros H. injection H as <-. eapply py_int_raises, Hb.
  - intros H. injection H as <-. eapply py_int_raises, Ha.
Qed.

Lemma roll_parse_well_formed txt N S :
  well_formed_roll txt N S -> roll_parse txt = Ok (N, S).
Proof.
  intros (Hints & HN & HS). unfold roll_parse. rewrite Hints.
  replace (N <=? 0) with false by lia. replace (N >? 10) with false by lia.
  replace (S <=? 0) with false by lia. replace (S >? 20) with false by lia.
  reflexivity.
Qed.

Lemma roll_parse_ok txt N S :
  roll_parse txt = Ok (N, S) -> well_formed_roll txt N S.
Proof.
  unfold roll_parse, well_formed_roll.
  destruct (roll_ints txt) as [[n s]|e]; [|discriminate].
  destruct (n <=? 0) eqn:H1; [discriminate|].
  destruct (n >? 10) eqn:H2; [discriminate|].
  destruct (s <=? 0) eqn:H3; [discriminate|].
  destruct (s >? 20) eqn:H4; [discriminate|].
  simpl. intros H. injection H as <- <-. repeat split; lia.
Qed.

Lemma roll_parse_raises txt e : roll_parse txt = Raise e -> e = ValueError.
Proof.
  unfold roll_parse. destruct (roll_ints txt) as [[n s]|e'] eqn:Hi.
  - destruct ((n <=? 0) || (n >? 10)); [congruence|].
    destruct ((s <=? 0) || (s >? 20)); congruence.
  - intros H. injection H as <-. eapply roll_ints_raises, Hi.
Qed.

Lemma roll_parse_malformed txt :
  malformed_roll txt <-> roll_parse txt = Raise ValueError.
Proof.
  split.
  - intros Hbad. destruct (roll_parse txt) as [[N S]|e] eqn:Hp.
    + elim (Hbad N S). now apply roll_parse_ok.
    + f_equal. eapply roll_parse_raises, Hp.
  - intros Hp N S Hwf. apply roll_parse_well_formed in Hwf. congruence.
Qed.

(** The malformed texts the specification lists. *)
Lemma listed_texts_are_malformed :
  Forall malformed_roll ["0d5"; "11d5"; "3d21"; "abc"; "3x5"; ""].
Proof. repeat constructor; now apply roll_parse_malformed. Qed.

(** The decimal numerals of the sides and the counts a roll may name. *)
Lemma small_numeral n : 1 <= n <= 20 ->
  lower (str_of_int n) = str_of_int n
  /\ has_char "d" (str_of_int n) = false
  /\ py_int (str_of_int n) = Ok n.
Proof.
  intros H.
  assert (Hn : exists k, (k < 20)%nat /\ n = 1 + Z.of_nat k).
  { exists (Z.to_nat (n - 1)). lia. }
  destruct Hn as (k & Hk & ->).
  do 20 (destruct k as [|k]; [now vm_compute|]). lia.
Qed.

(** [NdS] and [NDS], written with decimal numerals, parse as [(N, S)]. *)
Lemma plain_roll_parses N S (upper : bool) :
  1 <= N <= 10 -> 1 <= S <= 20 ->
  well_formed_roll
    (str_of_int N ++ String (if upper then "D" else "d")%char (str_of_int S))
    N S.
Proof.
  intros HN HS. repeat split; try lia.
  destruct (small_numeral N) as (HlN & HdN & HiN); [lia|].
  destruct (small_numeral S) as (HlS & HdS & HiS); [lia|].
  unfold roll_ints. rewrite lower_app. simpl lower.
  replace (lower_char (if upper then "D" else "d")%char) with "d"%char
    by now destruct upper.
  rewrite HlN, HlS, (split_on_app _ _ _ HdN), (split_on_whole _ _ HdS).
  now rewrite HiN, HiS.
Qed.

(** ** [/roll]: rolling and posting *)

Lemma randint_range a b env w :
  a <= b ->
  exists d w', randint a b env w = (Ok d, w')
               /\ a <= d <= b /\ sent w' = sent w.
Proof.
  intros Hab. unfold randint. replace (b <? a) with false by lia.
  eexists _, _. split; [reflexivity|]. split; [|reflexivity].
  pose proof (Z.mod_pos_bound (Z.of_nat (entropy env (draws w))) (b - a + 1)).
  lia.
Qed.

(** The loop always ends, with one value per die, each between 1 and
    [typedice + 1], and issues no request. *)
Lemma roll_dice_run n typedice env : 0 <= typedice ->
  forall dice w,
  exists rolled w',
    roll_dice n typedice dice env w = (Ok (dice ++ rolled)%list, w')
    /\ List.length rolled = n
    /\ Forall (fun d => 1 <= d <= typedice + 1) rolled
    /\ sent w' = sent w.
Proof.
  intros Ht. induction n as [|n IH]; intros dice w.
  - exists [], w. simpl. unfold ret. now rewrite app_nil_r.
  - destruct (randint_range 1 (typedice + 1) env w) as (d & w1 & Hd & Hr & Hs);
      [lia|].
    destruct (IH (dice ++ [d])%list w1) as (rolled & w2 & Hrun & Hlen & Hall & Hs2).
    exists (d :: rolled), w2. simpl roll_dice.
    rewrite (bind_ok _ _ _ _ _ _ Hd), Hrun, <- app_assoc. simpl.
    repeat split; try congruence; try lia. constructor; [lia | assumption].
Qed.

Lemma roll_payload_call cmd N S dice :
  (CHAT_POST_MESSAGE, roll_payload cmd N S dice) = roll_call cmd N S dice.
Proof. reflexivity. Qed.

(** The undecorated handler on a well-formed text: the dice are rolled
    and the one request is the roll message. *)
Lemma slash_roll_body_well_formed cmd env w N S :
  well_formed_roll (text cmd) N S ->
  exists dice w1,
    List.length dice = Z.to_nat N
    /\ Forall (fun d => 1 <= d <= S + 1) dice
    /\ sent w1 = sent w
    /\ slash_roll_body cmd env w =
         (outcome_of_answer (answer env (sent w) (roll_call cmd N S dice)),
          log w1 (roll_call cmd N S dice)).
Proof.
  intros Hwf. pose proof Hwf as (_ & _ & HS).
  apply roll_parse_well_formed in Hwf.
  destruct (roll_dice_run (Z.to_nat N) S env ltac:(lia) [] w)
    as (dice & w1 & Hrun & Hlen & Hall & Hs).
  exists dice, w1. repeat split; try assumption.
  unfold slash_roll_body. rewrite Hwf.
  rewrite (bind_ok _ _ _ _ _ _ Hrun). simpl app.
  unfold bind. rewrite query_run, roll_payload_call, Hs.
  now destruct (answer env (sent w) _).
Qed.

(** The undecorated handler on a malformed text: the one request is the
    help message, and the handler ends as that request does. *)
Lemma slash_roll_body_malformed cmd env w :
  malformed_roll (text cmd) ->
  slash_roll_body cmd env w =
    (outcome_of_answer (answer env (sent w) (help_call cmd)),
     log w (help_call cmd)).
Proof.
  intros Hbad. apply roll_parse_malformed in Hbad.
  unfold slash_roll_body. rewrite Hbad. unfold bind. rewrite query_run.
  unfold help_call, roll_help_payload.
  now destruct (answer env (sent w) _).
Qed.

(** What the decorator makes of a handler that ends with the request
    [c]: nothing more when the client accepts it, the fallback when the
    client raises [SlackAPIError]. *)
Lemma catch_after_last_request (func : handler) cmd env w w1 c :
  func cmd env w = (outcome_of_answer (answer env (sent w1) c), log w1 c) ->
  exists tail,
    requests (catch_slack_error func cmd) env w = (sent w1 ++ c :: tail)%list
    /\ (tail = [] \/
        tail = [fallback_call cmd] /\ answer env (sent w1) c = Raise SlackAPIError)
    /\ (accepted env (sent w1) c ->
        tail = [] /\ outcome (catch_slack_error func cmd) env w = Ok tt).
Proof.
  intros Hrun. unfold requests, outcome, accepted.
  destruct (answer env (sent w1) c) as [resp|e] eqn:Hans; simpl in Hrun.
  - exists []. rewrite (catch_returns _ _ _ _ _ Hrun). simpl. auto.
  - destruct e;
      try (exists []; rewrite (catch_passes _ _ _ _ _ _ Hrun) by discriminate;
           simpl; split; [reflexivity|];
           split; [now left | intros [? ?]; discriminate]).
    exists [fallback_call cmd]. rewrite (catch_handles _ _ _ _ _ Hrun). simpl.
    rewrite <- app_assoc. simpl. split; [reflexivity|].
    split; [now right | intros [? ?]; discriminate].
Qed.

(** C1: for every [/roll] text that parses as [N]d[S] with
    [1 <= N <= 10] and [1 <= S <= 20], [slash_roll] issues exactly one
    [chat.postMessage] request (a normal, non-ephemeral message) to the
    invoking channel; its text mentions the invoking user, states [N]
    and [S], and lists exactly [N] integer values.  Whatever follows the
    roll message is not a channel message, and when the Slack client
    accepts the roll message nothing follows and the handler returns. *)
Theorem slash_roll_posts_one_roll cmd env w N S :
  roll_ints (text cmd) = Ok (N, S) -> 1 <= N <= 10 -> 1 <= S <= 20 ->
  exists dice tail,
    List.length dice = Z.to_nat N
    /\ requests (slash_roll cmd) env w
       = (sent w ++ roll_call cmd N S dice :: tail)%list
    /\ post_messages (roll_call cmd N S dice :: tail)
       = [roll_call cmd N S dice]
    /\ (accepted env (sent w) (roll_call cmd N S dice) ->
        tail = [] /\ outcome (slash_roll cmd) env w = Ok tt).
Proof.
  intros Hints HN HS.
  destruct (slash_roll_body_well_formed cmd env w N S)
    as (dice & w1 & Hlen & _ & Hs & Hrun); [now repeat split|].
  rewrite <- Hs in Hrun.
  destruct (catch_after_last_request _ _ _ _ _ _ Hrun) as (tail & Hreq & Htail & Hacc).
  rewrite Hs in Hreq, Hacc.
  exists dice, tail. repeat split; try assumption.
  - destruct Htail as [-> | [-> _]]; reflexivity.
  - now apply Hacc.
  - now apply Hacc.
Qed.

Lemma slash_roll_posts_one_roll_witness :
  exists dice tail,
    List.length dice = 2%nat
    /\ requests (slash_roll (roll_command "2d6")) calm_env fresh_world
       = roll_call (roll_command "2d6") 2 6 dice :: tail
    /\ post_messages (roll_call (roll_command "2d6") 2 6 dice :: tail)
       = [roll_call (roll_command "2d6") 2 6 dice]
    /\ (accepted calm_env [] (roll_call (roll_command "2d6") 2 6 dice) ->
        tail = [] /\ outcome (slash_roll (roll_command "2d6")) calm_env fresh_world
                     = Ok tt).
Proof.
  apply (slash_roll_posts_one_roll (roll_command "2d6") calm_env fresh_world 2 6);
    [reflexivity | lia | lia].
Defined.

(** C2: the values of a roll of an [S]-sided die are meant to lie in
    [1..S], but the loop draws from [randint(1, typedice + 1)], whose
    upper end is included: the one die of [/roll 1d20] can show 21. *)
Theorem slash_roll_d20_shows_21 :
  well_formed_roll "1d20" 1 20
  /\ slash_roll (roll_command "1d20") high_env fresh_world
     = (Ok tt,
        {| sent := [roll_call (roll_command "1d20") 1 20 [21]]; draws := 1 |})
  /\ ~ (1 <= 21 <= 20).
Proof.
  split; [|split].
  - repeat split; try lia; reflexivity.
  - reflexivity.
  - lia.
Qed.

Lemma fallback_is_not_help cmd : fallback_call cmd <> help_call cmd.
Proof. unfold fallback_call, fallback_payload, help_call. congruence. Qed.

(** C3: for every [/roll] text (of ASCII characters) that is malformed,
    that is, that does not parse as [N]d[S] with [N] in [1..10] and [S]
    in [1..20], [slash_roll] issues the ephemeral help message to the
    invoking user as its first request and never a channel message.  The
    [ValueError] of the parse is recovered: the handler's own body ends
    exactly as the help request does, and when the Slack client accepts
    that request it is the only one and the handler returns without
    raising.  (Should the client refuse it, the one further request is
    the decorator's fallback notice, which is not a help message.) *)
Theorem slash_roll_malformed_gets_help cmd env w :
  ascii_text (text cmd) = true -> malformed_roll (text cmd) ->
  exists tail,
    requests (slash_roll cmd) env w = (sent w ++ help_call cmd :: tail)%list
    /\ (tail = [] \/ tail = [fallback_call cmd])
    /\ fallback_call cmd <> help_call cmd
    /\ post_messages (help_call cmd :: tail) = []
    /\ outcome (slash_roll_body cmd) env w
       = outcome_of_answer (answer env (sent w) (help_call cmd))
    /\ (accepted env (sent w) (help_call cmd) ->
        tail = [] /\ outcome (slash_roll cmd) env w = Ok tt).
Proof.
  intros _ Hbad.
  pose proof (slash_roll_body_malformed cmd env w Hbad) as Hrun.
  destruct (catch_after_last_request _ _ _ _ _ _ Hrun)
    as (tail & Hreq & Htail & Hacc).
  exists tail. split; [exact Hreq|].
  split; [destruct Htail as [-> | [-> _]]; auto|].
  split; [apply fallback_is_not_help|].
  split; [destruct Htail as [-> | [-> _]]; reflexivity|].
  split; [unfold outcome; now rewrite Hrun | exact Hacc].
Qed.

Lemma slash_roll_malformed_gets_help_witness :
  exists tail,
    requests (slash_roll (roll_command "11d5")) calm_env fresh_world
    = help_call (roll_command "11d5") :: tail
    /\ (tail = [] \/ tail = [fallback_call (roll_command "11d5")])
    /\ fallback_call (roll_command "11d5") <> help_call (roll_command "11d5")
    /\ post_messages (help_call (roll_command "11d5") :: tail) = []
    /\ outcome (slash_roll_body (roll_command "11d5")) calm_env fresh_world
       = outcome_of_answer (answer calm_env [] (help_call (roll_command "11d5")))
    /\ (accepted calm_env [] (help_call (roll_command "11d5")) ->
        tail = []
        /\ outcome (slash_roll (roll_command "11d5")) calm_env fresh_world = Ok tt).
Proof.
  apply (slash_roll_malformed_gets_help (roll_command "11d5") calm_env fresh_world).
  - reflexivity.
  - apply roll_parse_malformed. reflexivity.
Defined.

(** Whitespace around the two numerals does not keep a text from
    parsing. *)
Lemma spaced_roll_parses N S w1 w2 w3 w4 :
  1 <= N <= 10 -> 1 <= S <= 20 ->
  all_space w1 = true -> all_space w2 = true ->
  all_space w3 = true -> all_space w4 = true ->
  well_formed_roll
    (w1 ++ str_of_int N ++ w2 ++ "d" ++ w3 ++ str_of_int S ++ w4) N S.
Proof.
  intros HN HS H1 H2 H3 H4. repeat split; try lia.
  destruct (small_numeral N) as (HlN & HdN & HiN); [lia|].
  destruct (small_numeral S) as (HlS & HdS & HiS); [lia|].
  unfold roll_ints.
  replace (w1 ++ str_of_int N ++ w2 ++ "d" ++ w3 ++ str_of_int S ++ w4)
    with ((w1 ++ str_of_int N ++ w2) ++ String "d" (w3 ++ str_of_int S ++ w4))
    by (now rewrite !append_assoc).
  rewrite lower_app. simpl lower.
  change (lower_char "d") with "d"%char.
  rewrite !lower_app, HlN, HlS, !lower_space by assumption.
  rewrite split_on_app, split_on_whole.
  - now rewrite (py_int_space_around w1 _ w2 N), (py_int_space_around w3 _ w4 S).
  - now rewrite !has_char_app, HdS, !space_has_no_d.
  - now rewrite !has_char_app, HdN, !space_has_no_d.
Qed.

(** C9: a text whose two numerals carry whitespace around them, such as
    ["2 d 6"], is accepted by the parse, because [int] skips the
    whitespace before and after a numeral; [slash_roll] then issues the
    roll message as its first request and no usage-help message. *)
Theorem slash_roll_accepts_spaced_text cmd env w N S w1 w2 w3 w4 :
  1 <= N <= 10 -> 1 <= S <= 20 ->
  all_space w1 = true -> all_space w2 = true ->
  all_space w3 = true -> all_space w4 = true ->
  text cmd = w1 ++ str_of_int N ++ w2 ++ "d" ++ w3 ++ str_of_int S ++ w4 ->
  roll_parse (text cmd) = Ok (N, S)
  /\ exists dice tail,
       List.length dice = Z.to_nat N
       /\ requests (slash_roll cmd) env w
          = (sent w ++ roll_call cmd N S dice :: tail)%list
       /\ (tail = [] \/ tail = [fallback_call cmd])
       /\ ~ In (help_call cmd) (roll_call cmd N S dice :: tail).
Proof.
  intros HN HS H1 H2 H3 H4 Htext.
  assert (Hwf : well_formed_roll (text cmd) N S).
  { rewrite Htext. now apply spaced_roll_parses. }
  split; [now apply roll_parse_well_formed|].
  destruct (slash_roll_body_well_formed cmd env w N S Hwf)
    as (dice & w' & Hlen & _ & Hs & Hrun).
  rewrite <- Hs in Hrun.
  destruct (catch_after_last_request _ _ _ _ _ _ Hrun)
    as (tail & Hreq & Htail & _).
  rewrite Hs in Hreq. exists dice, tail.
  split; [exact Hlen|]. split; [exact Hreq|].
  split; [destruct Htail as [-> | [-> _]]; auto|].
  pose proof (fallback_is_not_help cmd) as Hne.
  assert (Hroll : help_call cmd <> roll_call cmd N S dice)
    by (unfold help_call, roll_call; congruence).
  destruct Htail as [-> | [-> _]]; simpl.
  - intros [H | []]. now apply Hroll.
  - intros [H | [H | []]]; [now apply Hroll | now apply Hne].
Qed.

Lemma slash_roll_accepts_spaced_text_witness :
  roll_parse "2 d 6" = Ok (2, 6)
  /\ exists dice tail,
       List.length dice = 2%nat
       /\ requests (slash_roll (roll_command "2 d 6")) calm_env fresh_world
          = roll_call (roll_command "2 d 6") 2 6 dice :: tail
       /\ (tail = [] \/ tail = [fallback_call (roll_command "2 d 6")])
       /\ ~ In (help_call (roll_command "2 d 6"))
              (roll_call (roll_command "2 d 6") 2 6 dice :: tail).
Proof.
  apply (slash_roll_accepts_spaced_text (roll_command "2 d 6") calm_env
           fresh_world 2 6 "" " " " " "");
    try reflexivity; lia.
Defined.

(** ** The decorator when the handler fails on the Slack client *)

(** C4, as the code has it: when the wrapped handler raises
    [SlackAPIError], the wrapper issues exactly one further request, the
    ephemeral fallback notice whose text names the slash command and the
    channel; the wrapper then ends as that request does, so no exception
    escapes it provided the Slack client accepts the notice. *)
Theorem catch_slack_error_sends_fallback (func : handler) cmd env w w1 :
  func cmd env w = (Raise SlackAPIError, w1) ->
  requests (catch_slack_error func cmd) env w
  = (sent w1 ++ [fallback_call cmd])%list
  /\ fst (fallback_call cmd) = CHAT_POST_EPHEMERAL
  /\ getitem (snd (fallback_call cmd)) "text"
     = Ok (VStr ("Could not post result of `" ++ command cmd
                   ++ "` to channel <#" ++ channel_id cmd ++ ">"))
  /\ outcome (catch_slack_error func cmd) env w
     = outcome_of_answer (answer env (sent w1) (fallback_call cmd))
  /\ (accepted env (sent w1) (fallback_call cmd) ->
      outcome (catch_slack_error func cmd) env w = Ok tt).
Proof.
  intros Hrun. unfold requests, outcome.
  rewrite (catch_handles _ _ _ _ _ Hrun). simpl.
  repeat split. intros [resp Hresp]. now rewrite Hresp.
Qed.

(** C10: the fallback notice is addressed to the invoking user: the
    user's id is both its [channel] and its [user]; the channel of the
    failed post occurs in its [text] and in no other field. *)
Theorem fallback_goes_to_the_user (func : handler) cmd env w w1 :
  func cmd env w = (Raise SlackAPIError, w1) ->
  exists d notice,
    requests (catch_slack_error func cmd) env w
    = (sent w1 ++ [(CHAT_POST_EPHEMERAL, VDict d)])%list
    /\ map fst d = ["user"; "channel"; "as_user"; "text"]
    /\ assoc "user" d = Some (VStr (user_id cmd))
    /\ assoc "channel" d = Some (VStr (user_id cmd))
    /\ assoc "as_user" d = Some (VBool true)
    /\ assoc "text" d = Some (VStr notice)
    /\ notice = "Could not post result of `" ++ command cmd
                  ++ "` to channel <#" ++ channel_id cmd ++ ">".
Proof.
  intros Hrun. unfold requests.
  rewrite (catch_handles _ _ _ _ _ Hrun). simpl.
  eexists _, _. repeat split.
Qed.

(** A [SlackAPIError] leaves a wrapped handler only when the fallback
    notice itself was refused. *)
Lemma wrapped_raises_only_from_fallback (func : handler) cmd env w :
  outcome (catch_slack_error func cmd) env w = Raise SlackAPIError ->
  exists hist,
    requests (catch_slack_error func cmd) env w
    = (hist ++ [fallback_call cmd])%list
    /\ answer env hist (fallback_call cmd) = Raise SlackAPIError.
Proof.
  unfold outcome, requests.
  destruct (func cmd env w) as [[[]|e] w1] eqn:Hrun.
  - rewrite (catch_returns _ _ _ _ _ Hrun). discriminate.
  - destruct e;
      try (rewrite (catch_passes _ _ _ _ _ _ Hrun) by discriminate;
           discriminate).
    rewrite (catch_handles _ _ _ _ _ Hrun). simpl.
    destruct (answer env (sent w1) (fallback_call cmd)) eqn:Hans;
      [discriminate|].
    simpl. intros H. injection H as ->. now exists (sent w1).
Qed.

(** ** [/here] *)

Lemma slash_here_body_denied cmd env w r :
  http_get env (here_request cmd) = Ok r ->
  400 <= status r \/ json r = Ok (VList []) ->
  slash_here_body cmd env w = (Ok tt, w).
Proof.
  intros Hget Hdenied. unfold slash_here_body, bind, session_get.
  rewrite Hget. destruct (status r >=? 400) eqn:Hst; [reflexivity|].
  destruct Hdenied as [Hs | Hj]; [lia|].
  unfold lift. rewrite Hj. reflexivity.
Qed.

(** C5: when the moderation service answers with a status of 400 or
    more, or with an empty list, [slash_here] returns without a single
    request to the Slack client. *)
Theorem slash_here_denied_is_silent cmd env w r :
  http_get env (here_request cmd) = Ok r ->
  400 <= status r \/ json r = Ok (VList []) ->
  slash_here cmd env w = (Ok tt, w)
  /\ requests (slash_here cmd) env w = sent w.
Proof.
  intros Hget Hdenied.
  pose proof (slash_here_body_denied cmd env w r Hget Hdenied) as Hrun.
  unfold requests, slash_here. rewrite (catch_returns _ _ _ _ _ Hrun). auto.
Qed.

Lemma slash_here_body_authorized cmd env w r entry others message
      member_list w1 resp ts :
  http_get env (here_request cmd) = Ok r ->
  status r < 400 ->
  json r = Ok (VList (entry :: others)) ->
  get_slash_here_messages (user_id cmd) (channel_id cmd) (text cmd) env w
  = (Ok (message, member_list), w1) ->
  answer env (sent w1) (CHAT_POST_MESSAGE, here_first_post cmd message)
  = Ok resp ->
  getitem resp "ts" = Ok ts ->
  let first := (CHAT_POST_MESSAGE, here_first_post cmd message) in
  let second := (CHAT_POST_MESSAGE, here_second_post cmd member_list ts) in
  slash_here_body cmd env w
  = (outcome_of_answer (answer env (sent (log w1 first)) second),
     log (log w1 first) second).
Proof.
  intros Hget Hst Hj Hmsg Hans Hts first second.
  unfold slash_here_body, bind, session_get. rewrite Hget.
  replace (status r >=? 400) with false by lia.
  unfold lift. rewrite Hj. unfold py_len.
  destruct (Z.eqb_spec (Z.of_nat (List.length (entry :: others))) 0) as [H0|_];
    [discriminate H0|].
  rewrite Hmsg, query_run, Hans, Hts, query_run.
  fold first second. now destruct (answer env _ second).
Qed.

(** C6: when the moderation service answers with a status below 400 and
    a non-empty list, and the Slack client returns a timestamp for the
    first message, [slash_here] posts exactly two channel messages, one
    after the other, and the [thread_ts] of the second is the [ts] the
    client returned for the first. *)
Theorem slash_here_posts_threaded_pair cmd env w r entry others message
        member_list w1 resp ts :
  http_get env (here_request cmd) = Ok r ->
  status r < 400 ->
  json r = Ok (VList (entry :: others)) ->
  get_slash_here_messages (user_id cmd) (channel_id cmd) (text cmd) env w
  = (Ok (message, member_list), w1) ->
  answer env (sent w1)
    (CHAT_POST_MESSAGE, VDict [("channel", VStr (channel_id cmd)); ("text", message)])
  = Ok resp ->
  getitem resp "ts" = Ok ts ->
  let first :=
    (CHAT_POST_MESSAGE,
     VDict [("channel", VStr (channel_id cmd)); ("text", message)]) in
  let second :=
    (CHAT_POST_MESSAGE,
     VDict [("channel", VStr (channel_id cmd)); ("text", member_list);
            ("thread_ts", ts)]) in
  exists tail,
    requests (slash_here cmd) env w = (sent w1 ++ first :: second :: tail)%list
    /\ post_messages (first :: second :: tail) = [first; second]
    /\ getitem (snd second) "thread_ts" = getitem resp "ts"
    /\ (accepted env (sent w1 ++ [first])%list second ->
        tail = [] /\ outcome (slash_here cmd) env w = Ok tt).
Proof.
  intros Hget Hst Hj Hmsg Hans Hts first second.
  pose proof (slash_here_body_authorized cmd env w r entry others message
                member_list w1 resp ts Hget Hst Hj Hmsg Hans Hts) as Hrun.
  cbv zeta in Hrun.
  destruct (catch_after_last_request _ _ _ _ _ _ Hrun)
    as (tail & Hreq & Htail & Hacc).
  exists tail. simpl sent in Hreq, Hacc. rewrite <- app_assoc in Hreq.
  split; [exact Hreq|].
  split; [destruct Htail as [-> | [-> _]]; reflexivity|].
  split; [now rewrite Hts | exact Hacc].
Qed.

(** ** [/lunch] *)

(** C7: when the restaurant search answers with a failure status (400
    or more), [raise_for_status] raises and the exception leaves
    [slash_lunch], decorator included: no request reaches the Slack
    client, neither the lunch message nor the fallback notice. *)
Theorem slash_lunch_propagates_http_failure cmd env w lunch request r :
  LunchCommand (channel_id cmd) (user_id cmd) (text cmd) (user_name cmd)
  = Ok lunch ->
  get_yelp_request lunch = Ok request ->
  http_get env request = Ok r ->
  400 <= status r ->
  slash_lunch_body cmd env w = (Raise ClientResponseError, w)
  /\ slash_lunch cmd env w = (Raise ClientResponseError, w)
  /\ requests (slash_lunch cmd) env w = sent w.
Proof.
  intros Hlunch Hreq Hget Hst.
  assert (Hrun : slash_lunch_body cmd env w = (Raise ClientResponseError, w)).
  { unfold slash_lunch_body, bind, lift, session_get, raise_for_status.
    rewrite Hlunch, Hreq, Hget.
    replace (400 <=? status r) with true by lia. reflexivity. }
  unfold requests, slash_lunch.
  rewrite (catch_passes _ _ _ _ _ _ Hrun) by discriminate. auto.
Qed.

(** ** The command registry *)

(** C8: [create_endpoints] registers the six commands [/here], [/lunch],
    [/repeat], [/report], [/ticket] and [/roll], and the handler of each
    is a function wrapped by [catch_slack_error]. *)
Theorem registered_handlers_are_wrapped (plugin : SlackPlugin) :
  exists registered,
    create_endpoints plugin = (plugin ++ registered)%list
    /\ map (fun entry => fst (fst entry)) registered
       = ["/here"; "/lunch"; "/repeat"; "/report"; "/ticket"; "/roll"]
    /\ Forall (fun entry =>
                 exists body, snd (fst entry) = catch_slack_error body)
         registered.
Proof.
  eexists. split.
  - unfold create_endpoints, on_command. rewrite <- !app_assoc. reflexivity.
  - split; [reflexivity|].
    repeat constructor; simpl; eexists; reflexivity.
Qed.

(** * Further properties of the handlers *)

(** ** [/roll]: what the parse accepts *)

Lemma lower_char_idem c : lower_char (lower_char c) = lower_char c.
Proof. destruct c as [[] [] [] [] [] [] [] []]; reflexivity. Qed.

Lemma lower_idem s : lower (lower s) = lower s.
Proof.
  induction s as [|c s IH]; simpl; [reflexivity|].
  now rewrite lower_char_idem, IH.
Qed.

Lemma split_on_length sep s :
  List.length (split_on sep s) = S (count_char sep s).
Proof.
  induction s as [|c s IH]; simpl; [reflexivity|].
  destruct (Ascii.eqb c sep); simpl; [now rewrite IH|].
  destruct (split_on sep s) as [|p ps]; simpl in *; congruence.
Qed.

Lemma roll_ints_one_d txt N S :
  roll_ints txt = Ok (N, S) -> count_char "d" (lower txt) = 1%nat.
Proof.
  unfold roll_ints. intros H.
  pose proof (split_on_length "d" (lower txt)) as Hlen.
  destruct (split_on "d" (lower txt)) as [|a [|b [|c l]]];
    try discriminate H.
  simpl in Hlen. congruence.
Qed.

(** X1: a text in which the letter d (in either case) does not occur
    exactly once is malformed: [slash_roll] answers it with the help
    message. *)
Theorem roll_needs_exactly_one_d cmd env w :
  count_char "d" (lower (text cmd)) <> 1%nat ->
  malformed_roll (text cmd)
  /\ exists tail,
       requests (slash_roll cmd) env w = (sent w ++ help_call cmd :: tail)%list
       /\ (tail = [] \/ tail = [fallback_call cmd]).
Proof.
  intros Hcount.
  assert (Hbad : malformed_roll (text cmd)).
  { intros N S (Hints & _). apply Hcount. eapply roll_ints_one_d, Hints. }
  split; [exact Hbad|].
  pose proof (slash_roll_body_malformed cmd env w Hbad) as Hrun.
  destruct (catch_after_last_request _ _ _ _ _ _ Hrun)
    as (tail & Hreq & Htail & _).
  exists tail. split; [exact Hreq|].
  destruct Htail as [-> | [-> _]]; auto.
Qed.

(** X2: the case of the letters of the text does not matter:
    [slash_roll] does to a command what it does to the same command with
    its text in lower case. *)
Theorem slash_roll_ignores_case cmd env w :
  slash_roll (with_text cmd (lower (text cmd))) env w = slash_roll cmd env w.
Proof.
  unfold slash_roll, catch_slack_error, try_except, slash_roll_body,
    roll_parse, roll_ints, with_text.
  cbn [text]. rewrite lower_idem. reflexivity.
Qed.

(** ** [/roll]: the numerals of [str] read back by [int] *)

Lemma scan_numeral d : forall seen acc,
  scan_digits (NilEmpty.string_of_uint d) false seen acc
  = match d with
    | Decimal.Nil => if seen then Some (acc, "") else None
    | _ => Some (uint_value d acc, "")
    end.
Proof.
  induction d as [|d IH|d IH|d IH|d IH|d IH|d IH|d IH|d IH|d IH|d IH];
    intros seen acc; [reflexivity|..];
    cbn [NilEmpty.string_of_uint scan_digits uint_value];
    match goal with
    | |- context [is_digit ?c] => change (is_digit c) with true
    end;
    cbv iota; rewrite IH;
    match goal with
    | |- context [digit_value ?c] =>
        let v := eval vm_compute in (digit_value c) in
        change (digit_value c) with v
    end;
    rewrite ?Z.add_0_r; now destruct d.
Qed.

Lemma uint_value_acc d : forall acc,
  uint_value d (Z.pos acc) = Z.pos (Pos.of_uint_acc d acc).
Proof.
  induction d as [|d IH|d IH|d IH|d IH|d IH|d IH|d IH|d IH|d IH|d IH];
    intros acc; [reflexivity|..];
    cbn [uint_value Pos.of_uint_acc]; rewrite <- IH; f_equal; lia.
Qed.

Lemma uint_value_of_uint d : uint_value d 0 = Z.of_N (Pos.of_uint d).
Proof.
  induction d as [|d IH|d IH|d IH|d IH|d IH|d IH|d IH|d IH|d IH|d IH];
    [reflexivity | exact IH | ..];
    cbn [uint_value Pos.of_uint]; apply (uint_value_acc d).
Qed.

Lemma numeral_is_plain d :
  lower (NilEmpty.string_of_uint d) = NilEmpty.string_of_uint d
  /\ has_char "d" (NilEmpty.string_of_uint d) = false
  /\ lstrip (NilEmpty.string_of_uint d) = NilEmpty.string_of_uint d
  /\ fst (split_sign (NilEmpty.string_of_uint d)) = 1
  /\ snd (split_sign (NilEmpty.string_of_uint d)) = NilEmpty.string_of_uint d
  /\ starts_with_underscore (NilEmpty.string_of_uint d) = false.
Proof.
  induction d as [|d IH|d IH|d IH|d IH|d IH|d IH|d IH|d IH|d IH|d IH];
    [now repeat split|..];
    destruct IH as (Hl & Hd & _); cbn [NilEmpty.string_of_uint];
    repeat split; simpl; rewrite ?Hl, ?Hd; reflexivity.
Qed.

Lemma py_int_numeral d : d <> Decimal.Nil ->
  py_int (NilEmpty.string_of_uint d) = Ok (Z.of_N (Pos.of_uint d)).
Proof.
  intros Hd. unfold py_int.
  destruct (numeral_is_plain d) as (_ & _ & Hstrip & Hsign & Hrest & Hus).
  rewrite Hstrip.
  destruct (split_sign (NilEmpty.string_of_uint d)) as [sign s2].
  simpl in Hsign, Hrest. subst sign s2.
  rewrite Hus, scan_numeral, <- uint_value_of_uint.
  destruct d; try (now elim Hd); simpl all_space; cbv iota;
    f_equal; apply Z.mul_1_l.
Qed.

Lemma py_int_minus_numeral d : d <> Decimal.Nil ->
  py_int (String "-" (NilEmpty.string_of_uint d))
  = Ok (- Z.of_N (Pos.of_uint d)).
Proof.
  intros Hd. unfold py_int.
  destruct (numeral_is_plain d) as (_ & _ & _ & _ & _ & Hus).
  change (lstrip (String "-" (NilEmpty.string_of_uint d)))
    with (String "-" (NilEmpty.string_of_uint d)).
  change (split_sign (String "-" (NilEmpty.string_of_uint d)))
    with (-1, NilEmpty.string_of_uint d).
  cbv iota beta. rewrite Hus, scan_numeral, <- uint_value_of_uint.
  destruct d; try (now elim Hd); simpl all_space; cbv iota;
    f_equal; lia.
Qed.

Lemma numeral_of_nonnil d : d <> Decimal.Nil ->
  NilZero.string_of_uint d = NilEmpty.string_of_uint d.
Proof. now destruct d. Qed.

(** [int] reads back what [str] writes. *)
Lemma py_int_str_of_int n : py_int (str_of_int n) = Ok n.
Proof.
  unfold str_of_int. destruct n as [|p|p]; [reflexivity|..];
    cbn [Z.to_int NilZero.string_of_int];
    rewrite numeral_of_nonnil by apply DecimalPos.Unsigned.to_uint_nonnil.
  - rewrite py_int_numeral by apply DecimalPos.Unsigned.to_uint_nonnil.
    now rewrite DecimalPos.Unsigned.of_to.
  - rewrite py_int_minus_numeral by apply DecimalPos.Unsigned.to_uint_nonnil.
    now rewrite DecimalPos.Unsigned.of_to.
Qed.

Lemma str_of_int_is_plain n :
  lower (str_of_int n) = str_of_int n
  /\ has_char "d" (str_of_int n) = false.
Proof.
  assert (Hplain : forall d,
             lower (NilZero.string_of_uint d) = NilZero.string_of_uint d
             /\ has_char "d" (NilZero.string_of_uint d) = false).
  { intros d. destruct (numeral_is_plain d) as (Hl & Hd & _).
    destruct d; now split. }
  unfold str_of_int.
  destruct (Z.to_int n) as [d|d]; cbn [NilZero.string_of_int];
    destruct (Hplain d) as (Hl & Hd).
  - now split.
  - simpl. now rewrite Hl, Hd.
Qed.

Lemma roll_ints_plain N S :
  roll_ints (str_of_int N ++ String "d" (str_of_int S)) = Ok (N, S).
Proof.
  destruct (str_of_int_is_plain N) as (HlN & HdN).
  destruct (str_of_int_is_plain S) as (HlS & HdS).
  unfold roll_ints. rewrite lower_app. simpl lower.
  change (lower_char "d") with "d"%char.
  rewrite HlN, HlS, (split_on_app _ _ _ HdN), (split_on_whole _ _ HdS).
  now rewrite !py_int_str_of_int.
Qed.

(** X3: for a text written as the numeral of [N], the letter d and the
    numeral of [S], the parse accepts exactly the counts from 1 to 10
    and the sides from 1 to 20; every other pair of integers, zero and
    the negative ones included, is a [ValueError]. *)
Theorem plain_roll_accepted_iff_in_range N S :
  roll_parse (str_of_int N ++ String "d" (str_of_int S))
  = if in_roll_range N S then Ok (N, S) else Raise ValueError.
Proof.
  unfold roll_parse, in_roll_range. rewrite roll_ints_plain.
  destruct (Z.leb_spec N 0), (Z.gtb_spec N 10), (Z.leb_spec S 0),
    (Z.gtb_spec S 20), (Z.leb_spec 1 N), (Z.leb_spec N 10),
    (Z.leb_spec 1 S), (Z.leb_spec S 20); simpl; try reflexivity; lia.
Qed.

(** ** [/roll]: the dice *)

Lemma dice_of_succ env start typedice n :
  dice_of env start typedice (S n)
  = (1 + Z.of_nat (entropy env start) mod (typedice + 1))
      :: dice_of env (S start) typedice n.
Proof.
  unfold dice_of. cbn [seq map]. rewrite Nat.add_0_r. f_equal.
  rewrite <- seq_shift, map_map. apply map_ext. intros i.
  now rewrite Nat.add_succ_r.
Qed.

(** The loop draws [n] times in a row, from the position the world is at. *)
Lemma roll_dice_draws n typedice env : 0 <= typedice ->
  forall dice w,
    roll_dice n typedice dice env w
    = (Ok (dice ++ dice_of env (draws w) typedice n)%list,
       {| sent := sent w; draws := draws w + n |}).
Proof.
  intros Ht. induction n as [|n IH]; intros dice w.
  - simpl. unfold ret, dice_of. simpl. rewrite app_nil_r, Nat.add_0_r.
    now destruct w.
  - cbn [roll_dice]. unfold bind at 1. unfold randint.
    replace (typedice + 1 <? 1) with false by lia.
    rewrite IH. cbn [sent draws]. rewrite dice_of_succ, <- app_assoc.
    replace (typedice + 1 - 1 + 1) with (typedice + 1) by lia.
    rewrite Nat.add_succ_r. reflexivity.
Qed.

Lemma dice_of_length env start typedice n :
  List.length (dice_of env start typedice n) = n.
Proof. unfold dice_of. now rewrite length_map, length_seq. Qed.

Lemma dice_of_range env start typedice n : 0 <= typedice ->
  Forall (fun d => 1 <= d <= typedice + 1) (dice_of env start typedice n).
Proof.
  intros Ht. unfold dice_of. apply Forall_forall. intros d Hd.
  apply in_map_iff in Hd as (i & <- & _).
  pose proof (Z.mod_pos_bound (Z.of_nat (entropy env (start + i)))
                (typedice + 1)).
  lia.
Qed.

Lemma dice_of_nth env typedice n : forall start i, (i < n)%nat ->
  nth i (dice_of env start typedice n) 1
  = 1 + Z.of_nat (entropy env (start + i)) mod (typedice + 1).
Proof.
  induction n as [|n IH]; intros start i Hi; [lia|].
  rewrite dice_of_succ. destruct i as [|i]; cbn [nth].
  - now rewrite Nat.add_0_r.
  - rewrite IH by lia. now rewrite Nat.add_succ_r.
Qed.

Lemma slash_roll_body_draws cmd env w N S :
  well_formed_roll (text cmd) N S ->
  let dice := dice_of env (draws w) S (Z.to_nat N) in
  slash_roll_body cmd env w
  = (outcome_of_answer (answer env (sent w) (roll_call cmd N S dice)),
     log {| sent := sent w; draws := draws w + Z.to_nat N |}
       (roll_call cmd N S dice)).
Proof.
  intros Hwf dice. pose proof Hwf as (_ & _ & HS).
  apply roll_parse_well_formed in Hwf.
  unfold slash_roll_body. rewrite Hwf. unfold bind at 1.
  rewrite roll_dice_draws by lia. cbn [app]. fold dice.
  unfold bind. rewrite query_run, roll_payload_call. cbn [sent].
  now destruct (answer env (sent w) _).
Qed.

Lemma catch_keeps_draws (func : handler) cmd env w :
  draws (snd (catch_slack_error func cmd env w))
  = draws (snd (func cmd env w)).
Proof.
  destruct (func cmd env w) as [[[]|e] w1] eqn:Hrun.
  - now rewrite (catch_returns _ _ _ _ _ Hrun).
  - destruct e;
      try (now rewrite (catch_passes _ _ _ _ _ _ Hrun) by discriminate).
    now rewrite (catch_handles _ _ _ _ _ Hrun).
Qed.

(** X4: on a well-formed text the values of the roll message are the
    next [N] draws of the random source, each between 1 and [S + 1]
    inclusive (the upper end of [randint(1, typedice + 1)]), and the
    handler draws exactly [N] times. *)
Theorem roll_values_lie_in_1_to_sides_plus_1 cmd env w N S :
  well_formed_roll (text cmd) N S ->
  exists dice tail,
    dice = dice_of env (draws w) S (Z.to_nat N)
    /\ requests (slash_roll cmd) env w
       = (sent w ++ roll_call cmd N S dice :: tail)%list
    /\ List.length dice = Z.to_nat N
    /\ Forall (fun d => 1 <= d <= S + 1) dice
    /\ draws (snd (slash_roll cmd env w)) = (draws w + Z.to_nat N)%nat.
Proof.
  intros Hwf. pose proof Hwf as (_ & _ & HS).
  pose proof (slash_roll_body_draws cmd env w N S Hwf) as Hrun.
  cbv zeta in Hrun.
  set (dice := dice_of env (draws w) S (Z.to_nat N)) in *.
  set (w1 := {| sent := sent w; draws := draws w + Z.to_nat N |}) in *.
  change (sent w) with (sent w1) in Hrun at 1.
  destruct (catch_after_last_request _ _ _ _ _ _ Hrun)
    as (tail & Hreq & _ & _).
  exists dice, tail. split; [reflexivity|]. split; [exact Hreq|].
  split; [apply dice_of_length|]. split; [apply dice_of_range; lia|].
  unfold slash_roll. rewrite catch_keeps_draws, Hrun. reflexivity.
Qed.

(** X5: every list of [N] values between 1 and [S + 1] can be
    announced: when the draws of the random source are the values less
    one, the roll message lists exactly that list; in particular an
    [S]-sided die can show [S + 1] at any position. *)
Theorem any_values_up_to_sides_plus_1_can_be_rolled cmd env w N S target :
  well_formed_roll (text cmd) N S ->
  List.length target = Z.to_nat N ->
  Forall (fun d => 1 <= d <= S + 1) target ->
  (forall i, (i < List.length target)%nat ->
             entropy env (draws w + i) = Z.to_nat (nth i target 1 - 1)) ->
  exists tail,
    requests (slash_roll cmd) env w
    = (sent w ++ roll_call cmd N S target :: tail)%list.
Proof.
  intros Hwf Hlen Hrange Hent.
  assert (Hdice : dice_of env (draws w) S (Z.to_nat N) = target).
  { apply (nth_ext _ _ 1 1).
    - now rewrite dice_of_length.
    - intros i Hi. rewrite dice_of_length, <- Hlen in Hi.
      rewrite dice_of_nth by (now rewrite <- Hlen).
      rewrite Hent by exact Hi.
      assert (Hin : 1 <= nth i target 1 <= S + 1).
      { rewrite Forall_forall in Hrange. apply Hrange. now apply nth_In. }
      rewrite Z2Nat.id by lia. rewrite Z.mod_small by lia. lia. }
  pose proof (slash_roll_body_draws cmd env w N S Hwf) as Hrun.
  cbv zeta in Hrun. rewrite Hdice in Hrun.
  set (w1 := {| sent := sent w; draws := draws w + Z.to_nat N |}) in *.
  change (sent w) with (sent w1) in Hrun at 1.
  destruct (catch_after_last_request _ _ _ _ _ _ Hrun)
    as (tail & Hreq & _ & _).
  now exists tail.
Qed.


(** ** The decorator and the registry *)

(** X7: the decorator keeps what the handler did: the requests of the
    handler stay as they are, at most the fallback notice is added after
    them, no random draw is made, and unless the handler raises
    [SlackAPIError] the wrapped handler does exactly what the handler
    does. *)
Theorem catch_slack_error_only_adds_fallback (func : handler) cmd env w :
  exists tail,
    requests (catch_slack_error func cmd) env w
    = (requests (func cmd) env w ++ tail)%list
    /\ (tail = [] \/ tail = [fallback_call cmd])
    /\ draws (snd (catch_slack_error func cmd env w))
       = draws (snd (func cmd env w))
    /\ (outcome (func cmd) env w <> Raise SlackAPIError ->
        catch_slack_error func cmd env w = func cmd env w).
Proof.
  unfold requests, outcome.
  destruct (func cmd env w) as [[[]|e] w1] eqn:Hrun.
  - exists []. rewrite (catch_returns _ _ _ _ _ Hrun), app_nil_r. auto.
  - destruct e;
      try (exists []; rewrite (catch_passes _ _ _ _ _ _ Hrun) by discriminate;
           rewrite app_nil_r; auto).
    exists [fallback_call cmd]. rewrite (catch_handles _ _ _ _ _ Hrun).
    simpl. repeat split; auto. intros H. now elim H.
Qed.

(** X8: every handler that [create_endpoints] registers is registered
    with [wait=False], and a [SlackAPIError] leaves it only from the
    fallback notice: then the notice is the last request on record and
    the Slack client refused it. *)
Theorem registered_handlers_contain_slack_errors (plugin : SlackPlugin) :
  exists registered,
    create_endpoints plugin = (plugin ++ registered)%list
    /\ Forall (fun entry =>
                 snd entry = false
                 /\ forall cmd env w,
                      outcome (snd (fst entry) cmd) env w = Raise SlackAPIError ->
                      exists hist,
                        requests (snd (fst entry) cmd) env w
                        = (hist ++ [fallback_call cmd])%list
                        /\ answer env hist (fallback_call cmd)
                           = Raise SlackAPIError)
         registered.
Proof.
  eexists. split.
  - unfold create_endpoints, on_command. rewrite <- !app_assoc. reflexivity.
  - repeat constructor; simpl; intros cmd env w;
      apply wrapped_raises_only_from_fallback.
Qed.

(** ** [/report] *)

Lemma slash_report_body_run cmd env w :
  slash_report_body cmd env w
  = (outcome_of_answer (answer env (sent w) (report_call cmd)),
     log w (report_call cmd)).
Proof.
  unfold slash_report_body, bind. rewrite query_run. fold (report_call cmd).
  now destruct (answer env (sent w) _).
Qed.

Lemma slash_report_accepted cmd env w :
  accepted env (sent w) (report_call cmd) ->
  slash_report cmd env w = (Ok tt, log w (report_call cmd)).
Proof.
  intros [resp Hresp]. apply catch_returns.
  now rewrite slash_report_body_run, Hresp.
Qed.

(** X9: [slash_report] always issues exactly one channel message: the
    report ["<@user> sent report: text"] with the claim attachment,
    addressed to the moderators' channel whatever channel the command
    came from; when the Slack client accepts it nothing else is sent and
    the handler returns. *)
Theorem slash_report_posts_to_moderators cmd env w :
  exists tail,
    requests (slash_report cmd) env w
    = (sent w ++ report_call cmd :: tail)%list
    /\ post_messages (report_call cmd :: tail) = [report_call cmd]
    /\ getitem (snd (report_call cmd)) "channel" = Ok (VStr MODERATOR_CHANNEL)
    /\ (tail = [] \/ tail = [fallback_call cmd])
    /\ (accepted env (sent w) (report_call cmd) ->
        tail = [] /\ outcome (slash_report cmd) env w = Ok tt).
Proof.
  destruct (catch_after_last_request _ _ _ _ _ _
              (slash_report_body_run cmd env w))
    as (tail & Hreq & Htail & Hacc).
  exists tail. split; [exact Hreq|].
  split; [destruct Htail as [-> | [-> _]]; reflexivity|].
  split; [reflexivity|].
  split; [destruct Htail as [-> | [-> _]]; auto | exact Hacc].
Qed.

(** X10: reports are not deduplicated: the same [/report] command
    handled twice, the Slack client accepting both posts, leaves two
    identical messages for the moderators. *)
Theorem slash_report_twice_posts_twice cmd env w :
  accepted env (sent w) (report_call cmd) ->
  accepted env (sent w ++ [report_call cmd])%list (report_call cmd) ->
  outcome (twice slash_report cmd) env w = Ok tt
  /\ requests (twice slash_report cmd) env w
     = (sent w ++ [report_call cmd; report_call cmd])%list.
Proof.
  intros H1 H2. unfold outcome, requests, twice.
  rewrite (bind_ok _ _ _ _ _ _ (slash_report_accepted cmd env w H1)).
  rewrite (slash_report_accepted cmd env (log w (report_call cmd)) H2).
  simpl. now rewrite <- app_assoc.
Qed.

(** X11: when the Slack client refuses the report with [SlackAPIError],
    the fallback notice names the channel the command came from,
    although the refused post was addressed to the moderators' channel. *)
Theorem slash_report_fallback_names_invoking_channel cmd env w :
  answer env (sent w) (report_call cmd) = Raise SlackAPIError ->
  requests (slash_report cmd) env w
  = (sent w ++ [report_call cmd; fallback_call cmd])%list
  /\ getitem (snd (report_call cmd)) "channel" = Ok (VStr MODERATOR_CHANNEL)
  /\ getitem (snd (fallback_call cmd)) "text"
     = Ok (VStr ("Could not post result of `" ++ command cmd
                   ++ "` to channel <#" ++ channel_id cmd ++ ">")).
Proof.
  intros Hans.
  pose proof (slash_report_body_run cmd env w) as Hrun.
  rewrite Hans in Hrun. simpl in Hrun.
  unfold requests, slash_report. rewrite (catch_handles _ _ _ _ _ Hrun).
  simpl. rewrite <- app_assoc. auto.
Qed.

(** ** [/ticket] *)

Lemma getitem_raises v k e :
  getitem v k = Raise e -> e = KeyError \/ e = TypeError.
Proof.
  destruct v; simpl; try (intros [= <-]; now right).
  destruct (assoc k d); [discriminate|]. intros [= <-]. now left.
Qed.

Lemma profile_email_raises info e :
  profile_email info = Raise e -> e = KeyError \/ e = TypeError.
Proof.
  unfold profile_email.
  destruct (getitem info "user") as [user|e1] eqn:H1.
  - destruct (getitem user "profile") as [profile|e2] eqn:H2.
    + apply getitem_raises.
    + intros [= <-]. eapply getitem_raises, H2.
  - intros [= <-]. eapply getitem_raises, H1.
Qed.

Lemma slash_ticket_body_with_email cmd env w info email :
  answer env (sent w) (users_info_call cmd) = Ok info ->
  profile_email info = Ok email ->
  slash_ticket_body cmd env w
  = (outcome_of_answer
       (answer env (sent (log w (users_info_call cmd))) (dialog_call cmd email)),
     log (log w (users_info_call cmd)) (dialog_call cmd email)).
Proof.
  intros Hans Hemail. unfold slash_ticket_body, bind.
  rewrite query_run. fold (users_info_call cmd). rewrite Hans.
  unfold lift, profile_email in *.
  destruct (getitem info "user") as [user|]; [|discriminate].
  destruct (getitem user "profile") as [profile|]; [|discriminate].
  rewrite Hemail, query_run. fold (dialog_call cmd email).
  now destruct (answer env _ (dialog_call cmd email)).
Qed.

(** X12: when [users.info] answers with a profile that carries an
    e-mail address, [slash_ticket] issues exactly two requests, the
    lookup of the invoking user and then [dialog.open] with the
    command's trigger id and the dialog built from that address and the
    text; it posts no channel message. *)
Theorem slash_ticket_opens_dialog cmd env w info email :
  answer env (sent w) (users_info_call cmd) = Ok info ->
  profile_email info = Ok email ->
  exists tail,
    requests (slash_ticket cmd) env w
    = (sent w ++ users_info_call cmd :: dialog_call cmd email :: tail)%list
    /\ post_messages (users_info_call cmd :: dialog_call cmd email :: tail) = []
    /\ (tail = [] \/ tail = [fallback_call cmd])
    /\ (accepted env (sent w ++ [users_info_call cmd])%list
          (dialog_call cmd email) ->
        tail = [] /\ outcome (slash_ticket cmd) env w = Ok tt).
Proof.
  intros Hans Hemail.
  destruct (catch_after_last_request _ _ _ _ _ _
              (slash_ticket_body_with_email cmd env w info email Hans Hemail))
    as (tail & Hreq & Htail & Hacc).
  simpl sent in Hreq, Hacc. rewrite <- app_assoc in Hreq.
  exists tail. split; [exact Hreq|].
  split; [destruct Htail as [-> | [-> _]]; reflexivity|].
  split; [destruct Htail as [-> | [-> _]]; auto | exact Hacc].
Qed.

(** X13: when the answer of [users.info] lacks the user, the profile or
    the e-mail address, the subscript fails with [KeyError] (or
    [TypeError], on a value that is no dictionary); the exception leaves
    [slash_ticket], no dialog is opened and no fallback notice is sent:
    the lookup stays the only request. *)
Theorem slash_ticket_without_email_raises cmd env w info e :
  answer env (sent w) (users_info_call cmd) = Ok info ->
  profile_email info = Raise e ->
  (e = KeyError \/ e = TypeError)
  /\ slash_ticket cmd env w = (Raise e, log w (users_info_call cmd))
  /\ requests (slash_ticket cmd) env w = (sent w ++ [users_info_call cmd])%list.
Proof.
  intros Hans Hemail.
  pose proof (profile_email_raises _ _ Hemail) as He.
  assert (Hrun : slash_ticket_body cmd env w
                 = (Raise e, log w (users_info_call cmd))).
  { unfold slash_ticket_body, bind.
    rewrite query_run. fold (users_info_call cmd). rewrite Hans.
    unfold lift, profile_email in *.
    destruct (getitem info "user") as [user|]; [|congruence].
    destruct (getitem user "profile") as [profile|]; [|congruence].
    now rewrite Hemail. }
  assert (Hne : e <> SlackAPIError) by (destruct He; subst; discriminate).
  unfold requests, slash_ticket.
  rewrite (catch_passes _ _ _ _ _ _ Hrun Hne). auto.
Qed.

(** ** [/repeat] *)

(** X14: [slash_repeat] forwards to the Slack client exactly the method
    and the message that [get_slash_repeat_messages] selects, as its one
    request of its own. *)
Theorem slash_repeat_forwards_selection cmd env w m message :
  get_slash_repeat_messages (user_id cmd) (channel_id cmd) (text cmd)
  = Ok (m, message) ->
  exists tail,
    requests (slash_repeat cmd) env w = (sent w ++ (m, message) :: tail)%list
    /\ (tail = [] \/ tail = [fallback_call cmd])
    /\ (accepted env (sent w) (m, message) ->
        tail = [] /\ outcome (slash_repeat cmd) env w = Ok tt).
Proof.
  intros Hsel.
  assert (Hrun : slash_repeat_body cmd env w
                 = (outcome_of_answer (answer env (sent w) (m, message)),
                    log w (m, message))).
  { unfold slash_repeat_body, bind, lift. rewrite Hsel, query_run.
    now destruct (answer env (sent w) _). }
  destruct (catch_after_last_request _ _ _ _ _ _ Hrun)
    as (tail & Hreq & Htail & Hacc).
  exists tail. split; [exact Hreq|].
  split; [destruct Htail as [-> | [-> _]]; auto | exact Hacc].
Qed.

(** X15: when [get_slash_repeat_messages] raises (anything but a
    [SlackAPIError]), the exception leaves [slash_repeat] and nothing is
    sent to the Slack client. *)
Theorem slash_repeat_selection_failure_propagates cmd env w e :
  get_slash_repeat_messages (user_id cmd) (channel_id cmd) (text cmd)
  = Raise e ->
  e <> SlackAPIError ->
  slash_repeat cmd env w = (Raise e, w).
Proof.
  intros Hsel Hne. apply catch_passes; [|exact Hne].
  unfold slash_repeat_body, bind, lift. now rewrite Hsel.
Qed.

(** ** [/here]: the other ways out *)

Lemma py_len_raises v e : py_len v = Raise e -> e = TypeError.
Proof. destruct v; simpl; congruence. Qed.

(** X16: a moderation answer whose JSON body has no length ([null], a
    number, a boolean) is not taken as a denial: [len] raises
    [TypeError], which leaves [slash_here], and nothing is sent to the
    Slack client. *)
Theorem slash_here_unsized_body_raises cmd env w r body e :
  http_get env (here_request cmd) = Ok r ->
  status r < 400 ->
  json r = Ok body ->
  py_len body = Raise e ->
  e = TypeError /\ slash_here cmd env w = (Raise TypeError, w).
Proof.
  intros Hget Hst Hj Hlen. pose proof (py_len_raises _ _ Hlen) as ->.
  split; [reflexivity|]. apply catch_passes; [|discriminate].
  unfold slash_here_body, bind, session_get, lift. rewrite Hget.
  replace (status r >=? 400) with false by lia. now rewrite Hj, Hlen.
Qed.

(** From the moderation answer to the first post, for any body with a
    positive length. *)
Lemma slash_here_body_to_first_post cmd env w r body n message member_list w1 :
  http_get env (here_request cmd) = Ok r ->
  status r < 400 ->
  json r = Ok body ->
  py_len body = Ok n ->
  n <> 0 ->
  get_slash_here_messages (user_id cmd) (channel_id cmd) (text cmd) env w
  = (Ok (message, member_list), w1) ->
  slash_here_body cmd env w
  = match answer env (sent w1) (here_first_call cmd message) with
    | Ok response =>
        match getitem response "ts" with
        | Ok ts =>
            (outcome_of_answer
               (answer env (sent (log w1 (here_first_call cmd message)))
                  (here_second_call cmd member_list ts)),
             log (log w1 (here_first_call cmd message))
               (here_second_call cmd member_list ts))
        | Raise e => (Raise e, log w1 (here_first_call cmd message))
        end
    | Raise e => (Raise e, log w1 (here_first_call cmd message))
    end.
Proof.
  intros Hget Hst Hj Hlen Hn Hmsg.
  unfold slash_here_body, bind, session_get, lift. rewrite Hget.
  replace (status r >=? 400) with false by lia. rewrite Hj, Hlen.
  replace (n =? 0) with false by lia.
  rewrite Hmsg, query_run.
  change (CHAT_POST_MESSAGE, here_first_post cmd message)
    with (here_first_call cmd message).
  destruct (answer env (sent w1) (here_first_call cmd message))
    as [response|e]; [|reflexivity].
  destruct (getitem response "ts") as [ts|e]; [|reflexivity].
  rewrite query_run.
  change (CHAT_POST_MESSAGE, here_second_post cmd member_list ts)
    with (here_second_call cmd member_list ts).
  now destruct (answer env _ (here_second_call cmd member_list ts)).
Qed.

(** X17: when the Slack client accepts the first message but its answer
    carries no [ts], the subscript raises [KeyError] ([TypeError] when
    the answer is no dictionary), which leaves [slash_here]: the
    announcement stays without its threaded member list, and no fallback
    notice is sent. *)
Theorem slash_here_missing_ts_raises cmd env w r body n message member_list
        w1 response e :
  http_get env (here_request cmd) = Ok r ->
  status r < 400 ->
  json r = Ok body ->
  py_len body = Ok n ->
  n <> 0 ->
  get_slash_here_messages (user_id cmd) (channel_id cmd) (text cmd) env w
  = (Ok (message, member_list), w1) ->
  answer env (sent w1) (here_first_call cmd message) = Ok response ->
  getitem response "ts" = Raise e ->
  (e = KeyError \/ e = TypeError)
  /\ slash_here cmd env w = (Raise e, log w1 (here_first_call cmd message))
  /\ requests (slash_here cmd) env w
     = (sent w1 ++ [here_first_call cmd message])%list.
Proof.
  intros Hget Hst Hj Hlen Hn Hmsg Hans Hts.
  pose proof (getitem_raises _ _ _ Hts) as He.
  pose proof (slash_here_body_to_first_post cmd env w r body n message
                member_list w1 Hget Hst Hj Hlen Hn Hmsg) as Hrun.
  rewrite Hans, Hts in Hrun.
  assert (Hne : e <> SlackAPIError) by (destruct He; subst; discriminate).
  unfold requests, slash_here.
  rewrite (catch_passes _ _ _ _ _ _ Hrun Hne). auto.
Qed.

(** X18: the authorization test is the length of the JSON body: any
    body of positive length, a non-empty object or string as well as a
    non-empty list, lets the announcement and its threaded member list
    be posted. *)
Theorem slash_here_any_sized_body_authorizes cmd env w r body n message
        member_list w1 response ts :
  http_get env (here_request cmd) = Ok r ->
  status r < 400 ->
  json r = Ok body ->
  py_len body = Ok n ->
  n <> 0 ->
  get_slash_here_messages (user_id cmd) (channel_id cmd) (text cmd) env w
  = (Ok (message, member_list), w1) ->
  answer env (sent w1) (here_first_call cmd message) = Ok response ->
  getitem response "ts" = Ok ts ->
  exists tail,
    requests (slash_here cmd) env w
    = (sent w1 ++ here_first_call cmd message
         :: here_second_call cmd member_list ts :: tail)%list
    /\ (tail = [] \/ tail = [fallback_call cmd]).
Proof.
  intros Hget Hst Hj Hlen Hn Hmsg Hans Hts.
  pose proof (slash_here_body_to_first_post cmd env w r body n message
                member_list w1 Hget Hst Hj Hlen Hn Hmsg) as Hrun.
  rewrite Hans, Hts in Hrun.
  destruct (catch_after_last_request _ _ _ _ _ _ Hrun)
    as (tail & Hreq & Htail & _).
  simpl sent in Hreq. rewrite <- app_assoc in Hreq.
  exists tail. split; [exact Hreq|].
  destruct Htail as [-> | [-> _]]; auto.
Qed.

(** X19: when the Slack client refuses the first message with
    [SlackAPIError], the threaded member list is never posted: the
    requests of [slash_here] are the refused announcement and the
    fallback notice, and the handler ends as the notice does. *)
Theorem slash_here_refused_announcement_gets_fallback cmd env w r body n
        message member_list w1 :
  http_get env (here_request cmd) = Ok r ->
  status r < 400 ->
  json r = Ok body ->
  py_len body = Ok n ->
  n <> 0 ->
  get_slash_here_messages (user_id cmd) (channel_id cmd) (text cmd) env w
  = (Ok (message, member_list), w1) ->
  answer env (sent w1) (here_first_call cmd message) = Raise SlackAPIError ->
  requests (slash_here cmd) env w
  = (sent w1 ++ [here_first_call cmd message; fallback_call cmd])%list
  /\ outcome (slash_here cmd) env w
     = outcome_of_answer
         (answer env (sent w1 ++ [here_first_call cmd message])%list
            (fallback_call cmd)).
Proof.
  intros Hget Hst Hj Hlen Hn Hmsg Hans.
  pose proof (slash_here_body_to_first_post cmd env w r body n message
                member_list w1 Hget Hst Hj Hlen Hn Hmsg) as Hrun.
  rewrite Hans in Hrun.
  unfold requests, outcome, slash_here.
  rewrite (catch_handles _ _ _ _ _ Hrun). simpl.
  now rewrite <- app_assoc.
Qed.

(** ** [/lunch]: the other ways out *)

(** X20: when the restaurant search answers with a status below 400 and
    a JSON body, [slash_lunch] sends what [select_random_lunch] makes of
    that body as one ephemeral message, its only request of its own. *)
Theorem slash_lunch_sends_selection cmd env w lunch request r body
        message_params w1 :
  LunchCommand (channel_id cmd) (user_id cmd) (text cmd) (user_name cmd)
  = Ok lunch ->
  get_yelp_request lunch = Ok request ->
  http_get env request = Ok r ->
  status r < 400 ->
  json r = Ok body ->
  select_random_lunch lunch body env w = (Ok message_params, w1) ->
  exists tail,
    requests (slash_lunch cmd) env w
    = (sent w1 ++ (CHAT_POST_EPHEMERAL, message_params) :: tail)%list
    /\ (tail = [] \/ tail = [fallback_call cmd])
    /\ (accepted env (sent w1) (CHAT_POST_EPHEMERAL, message_params) ->
        tail = [] /\ outcome (slash_lunch cmd) env w = Ok tt).
Proof.
  intros Hlunch Hreq Hget Hst Hj Hsel.
  assert (Hrun : slash_lunch_body cmd env w
                 = (outcome_of_answer
                      (answer env (sent w1) (CHAT_POST_EPHEMERAL, message_params)),
                    log w1 (CHAT_POST_EPHEMERAL, message_params))).
  { unfold slash_lunch_body, bind, lift, session_get, raise_for_status.
    rewrite Hlunch, Hreq, Hget.
    replace (400 <=? status r) with false by lia.
    unfold ret. rewrite Hj, Hsel, query_run.
    now destruct (answer env (sent w1) _). }
  destruct (catch_after_last_request _ _ _ _ _ _ Hrun)
    as (tail & Hreq' & Htail & Hacc).
  exists tail. split; [exact Hreq'|].
  split; [destruct Htail as [-> | [-> _]]; auto | exact Hacc].
Qed.

(** X21: a failure of the HTTP session, or of the decoding of the JSON
    body of an answer with a status below 400, leaves [slash_lunch] as it
    is (when it is no [SlackAPIError]); nothing is sent to the Slack
    client and no restaurant is selected. *)
Theorem slash_lunch_session_failure_propagates cmd env w lunch request e :
  LunchCommand (channel_id cmd) (user_id cmd) (text cmd) (user_name cmd)
  = Ok lunch ->
  get_yelp_request lunch = Ok request ->
  http_get env request = Raise e
  \/ (exists r, http_get env request = Ok r /\ status r < 400
                /\ json r = Raise e) ->
  e <> SlackAPIError ->
  slash_lunch cmd env w = (Raise e, w).
Proof.
  intros Hlunch Hreq Hfail Hne. apply catch_passes; [|exact Hne].
  unfold slash_lunch_body, bind, lift, session_get, raise_for_status.
  rewrite Hlunch, Hreq.
  destruct Hfail as [Hget | (r & Hget & Hst & Hj)]; rewrite Hget;
    [reflexivity|].
  replace (400 <=? status r) with false by lia.
  unfold ret. now rewrite Hj.
Qed.

(** ** [/mentor] *)

(** X22: when the three tables (services, mentors, skillsets) are
    fetched, [slash_mentor] posts the mentor request form, built from
    the three, as one message addressed to the invoking user (the
    [channel] is the user's id, with [as_user]), not to the channel the
    command came from. *)
Theorem slash_mentor_posts_form_to_user cmd env w services mentors skillsets
        w1 w2 w3 :
  get_all_records "Services" "Name" env w = (Ok services, w1) ->
  get_all_records "Mentors" "Full Name" env w1 = (Ok mentors, w2) ->
  get_all_records "Skillsets" "Skillset" env w2 = (Ok skillsets, w3) ->
  exists tail,
    requests (slash_mentor cmd) env w
    = (sent w3 ++ mentor_call cmd services mentors skillsets :: tail)%list
    /\ getitem (snd (mentor_call cmd services mentors skillsets)) "channel"
       = Ok (VStr (user_id cmd))
    /\ getitem (snd (mentor_call cmd services mentors skillsets)) "as_user"
       = Ok (VBool true)
    /\ (tail = [] \/ tail = [fallback_call cmd])
    /\ (accepted env (sent w3) (mentor_call cmd services mentors skillsets) ->
        tail = [] /\ outcome (slash_mentor cmd) env w = Ok tt).
Proof.
  intros H1 H2 H3.
  assert (Hrun : slash_mentor_body cmd env w
                 = (outcome_of_answer
                      (answer env (sent w3)
                         (mentor_call cmd services mentors skillsets)),
                    log w3 (mentor_call cmd services mentors skillsets))).
  { unfold slash_mentor_body, bind. rewrite H1, H2, H3, query_run.
    fold (mentor_call cmd services mentors skillsets).
    now destruct (answer env (sent w3) _). }
  destruct (catch_after_last_request _ _ _ _ _ _ Hrun)
    as (tail & Hreq & Htail & Hacc).
  exists tail. split; [exact Hreq|].
  split; [reflexivity|]. split; [reflexivity|].
  split; [destruct Htail as [-> | [-> _]]; auto | exact Hacc].
Qed.

End Handlers.

Arguments slash_lunch_body {Lunch}.
Arguments slash_lunch {Lunch}.

(** * The properties at sample inputs *)

(** C4 as stated fails: with a Slack client that refuses every request,
    the handler of [/roll 2d6] raises [SlackAPIError], the wrapper issues
    the fallback notice, the client refuses that too, and the
    [SlackAPIError] of the notice escapes the wrapper. *)
Lemma fallback_failure_escapes :
  slash_roll_body (roll_command "2d6") outage_env fresh_world
  = (Raise SlackAPIError, after_roll)
  /\ catch_slack_error slash_roll_body (roll_command "2d6") outage_env
       fresh_world
     = (Raise SlackAPIError,
        {| sent := [roll_call (roll_command "2d6") 2 6 [1; 2];
                    fallback_call (roll_command "2d6")];
           draws := 2 |}).
Proof. split; reflexivity. Qed.

Lemma catch_slack_error_sends_fallback_witness :
  requests (catch_slack_error slash_roll_body (roll_command "2d6")) picky_env
    fresh_world
  = [roll_call (roll_command "2d6") 2 6 [1; 2];
     fallback_call (roll_command "2d6")]
  /\ fst (fallback_call (roll_command "2d6")) = CHAT_POST_EPHEMERAL
  /\ getitem (snd (fallback_call (roll_command "2d6"))) "text"
     = Ok (VStr "Could not post result of `/roll` to channel <#C024BE91L>")
  /\ outcome (catch_slack_error slash_roll_body (roll_command "2d6"))
       picky_env fresh_world
     = outcome_of_answer
         (answer picky_env (sent after_roll) (fallback_call (roll_command "2d6")))
  /\ (accepted picky_env (sent after_roll) (fallback_call (roll_command "2d6")) ->
      outcome (catch_slack_error slash_roll_body (roll_command "2d6"))
        picky_env fresh_world = Ok tt).
Proof.
  apply (catch_slack_error_sends_fallback slash_roll_body
           (roll_command "2d6") picky_env fresh_world after_roll).
  reflexivity.
Defined.

Lemma fallback_goes_to_the_user_witness :
  exists d notice,
    requests (catch_slack_error slash_roll_body (roll_command "2d6")) picky_env
      fresh_world
    = (sent after_roll ++ [(CHAT_POST_EPHEMERAL, VDict d)])%list
    /\ map fst d = ["user"; "channel"; "as_user"; "text"]
    /\ assoc "user" d = Some (VStr "U2147483697")
    /\ assoc "channel" d = Some (VStr "U2147483697")
    /\ assoc "as_user" d = Some (VBool true)
    /\ assoc "text" d = Some (VStr notice)
    /\ notice = "Could not post result of `/roll` to channel <#C024BE91L>".
Proof.
  apply (fallback_goes_to_the_user slash_roll_body (roll_command "2d6")
           picky_env fresh_world after_roll).
  reflexivity.
Defined.

Lemma slash_here_denied_is_silent_witness :
  slash_here "localhost" "8000" "secret" sample_here_messages here_command
    (env_with mods_empty) fresh_world
  = (Ok tt, fresh_world)
  /\ requests
       (slash_here "localhost" "8000" "secret" sample_here_messages here_command)
       (env_with mods_empty) fresh_world
     = [].
Proof.
  apply (slash_here_denied_is_silent "localhost" "8000" "secret"
           sample_here_messages here_command (env_with mods_empty) fresh_world
           {| status := 200; json := Ok (VList []) |}).
  - reflexivity.
  - right. reflexivity.
Defined.

Lemma slash_here_posts_threaded_pair_witness :
  let first :=
    (CHAT_POST_MESSAGE,
     VDict [("channel", VStr "C024BE91L");
            ("text", VStr "<@U2147483697> standup")]) in
  let second :=
    (CHAT_POST_MESSAGE,
     VDict [("channel", VStr "C024BE91L"); ("text", VStr "<@U1> <@U2>");
            ("thread_ts", VStr "1546300800.000200")]) in
  let roster :=
    (OTHER_METHOD "conversations.members",
     VDict [("channel", VStr "C024BE91L")]) in
  exists tail,
    requests
      (slash_here "localhost" "8000" "secret" sample_here_messages here_command)
      (env_with mods_found) fresh_world
    = ([roster] ++ first :: second :: tail)%list
    /\ post_messages (first :: second :: tail) = [first; second]
    /\ getitem (snd second) "thread_ts"
       = getitem (VDict [("ok", VBool true); ("ts", VStr "1546300800.000200")])
           "ts"
    /\ (accepted (env_with mods_found) ([roster] ++ [first])%list second ->
        tail = []
        /\ outcome
             (slash_here "localhost" "8000" "secret" sample_here_messages
                here_command)
             (env_with mods_found) fresh_world
           = Ok tt).
Proof.
  apply (slash_here_posts_threaded_pair "localhost" "8000" "secret"
           sample_here_messages here_command (env_with mods_found) fresh_world
           {| status := 200;
              json := Ok (VList [VDict [("slack_id", VStr "U2147483697")]]) |}
           (VDict [("slack_id", VStr "U2147483697")]) []
           (VStr "<@U2147483697> standup") (VStr "<@U1> <@U2>")
           {| sent := [(OTHER_METHOD "conversations.members",
                        VDict [("channel", VStr "C024BE91L")])];
              draws := 0 |}
           (VDict [("ok", VBool true); ("ts", VStr "1546300800.000200")])
           (VStr "1546300800.000200"));
    solve [reflexivity | simpl; lia].
Defined.

Lemma slash_lunch_propagates_http_failure_witness :
  slash_lunch_body sample_LunchCommand sample_yelp_request sample_select_lunch
    lunch_command (env_with server_error) fresh_world
  = (Raise ClientResponseError, fresh_world)
  /\ slash_lunch sample_LunchCommand sample_yelp_request sample_select_lunch
       lunch_command (env_with server_error) fresh_world
     = (Raise ClientResponseError, fresh_world)
  /\ requests
       (slash_lunch sample_LunchCommand sample_yelp_request sample_select_lunch
          lunch_command)
       (env_with server_error) fresh_world
     = [].
Proof.
  apply (slash_lunch_propagates_http_failure string sample_LunchCommand
           sample_yelp_request sample_select_lunch lunch_command
           (env_with server_error) fresh_world "tacos"
           {| url := "https://api.yelp.com/v3/businesses/search";
              params := [("term", "tacos")];
              headers := [("Authorization", "Bearer token")] |}
           {| status := 500; json := Raise ClientError |});
    solve [reflexivity | simpl; lia].
Defined.

(** * The further properties at sample inputs *)

Lemma roll_needs_exactly_one_d_witness :
  malformed_roll "2d6d"
  /\ exists tail,
       requests (slash_roll (roll_command "2d6d")) calm_env fresh_world
       = help_call (roll_command "2d6d") :: tail
       /\ (tail = [] \/ tail = [fallback_call (roll_command "2d6d")]).
Proof.
  apply (roll_needs_exactly_one_d (roll_command "2d6d") calm_env fresh_world).
  vm_compute. discriminate.
Defined.

Lemma roll_values_lie_in_1_to_sides_plus_1_witness :
  exists dice tail,
    dice = dice_of calm_env 0 6 2
    /\ requests (slash_roll (roll_command "2d6")) calm_env fresh_world
       = roll_call (roll_command "2d6") 2 6 dice :: tail
    /\ List.length dice = 2%nat
    /\ Forall (fun d => 1 <= d <= 6 + 1) dice
    /\ draws (snd (slash_roll (roll_command "2d6") calm_env fresh_world))
       = 2%nat.
Proof.
  apply (roll_values_lie_in_1_to_sides_plus_1 (roll_command "2d6") calm_env
           fresh_world 2 6).
  repeat split; try lia; reflexivity.
Defined.

Lemma any_values_up_to_sides_plus_1_can_be_rolled_witness :
  exists tail,
    requests (slash_roll (roll_command "2d20")) loaded_env fresh_world
    = roll_call (roll_command "2d20") 2 20 [21; 1] :: tail.
Proof.
  apply (any_values_up_to_sides_plus_1_can_be_rolled (roll_command "2d20")
           loaded_env fresh_world 2 20 [21; 1]).
  - repeat split; try lia; reflexivity.
  - reflexivity.
  - repeat constructor; lia.
  - intros [|[|i]] Hi; [reflexivity | reflexivity | simpl in Hi; lia].
Defined.

Lemma slash_report_twice_posts_twice_witness :
  outcome (twice (slash_report "G1MODS" sample_attachment) report_command)
    calm_env fresh_world = Ok tt
  /\ requests (twice (slash_report "G1MODS" sample_attachment) report_command)
       calm_env fresh_world
     = [report_call "G1MODS" sample_attachment report_command;
        report_call "G1MODS" sample_attachment report_command].
Proof.
  apply (slash_report_twice_posts_twice "G1MODS" sample_attachment
           report_command calm_env fresh_world);
    eexists; reflexivity.
Defined.

Lemma slash_report_fallback_names_invoking_channel_witness :
  requests (slash_report "G1MODS" sample_attachment report_command) picky_env
    fresh_world
  = [report_call "G1MODS" sample_attachment report_command;
     fallback_call report_command]
  /\ getitem (snd (report_call "G1MODS" sample_attachment report_command))
       "channel" = Ok (VStr "G1MODS")
  /\ getitem (snd (fallback_call report_command)) "text"
     = Ok (VStr "Could not post result of `/report` to channel <#C024BE91L>").
Proof.
  apply (slash_report_fallback_names_invoking_channel "G1MODS"
           sample_attachment report_command picky_env fresh_world).
  reflexivity.
Defined.

Lemma slash_ticket_opens_dialog_witness :
  exists tail,
    requests (slash_ticket sample_ticket_dialog ticket_command)
      (slack_env directory_slack no_network) fresh_world
    = users_info_call ticket_command
        :: dialog_call sample_ticket_dialog ticket_command
             (VStr "steve@example.com") :: tail
    /\ post_messages
         (users_info_call ticket_command
            :: dialog_call sample_ticket_dialog ticket_command
                 (VStr "steve@example.com") :: tail) = []
    /\ (tail = [] \/ tail = [fallback_call ticket_command])
    /\ (accepted (slack_env directory_slack no_network)
          [users_info_call ticket_command]
          (dialog_call sample_ticket_dialog ticket_command
             (VStr "steve@example.com")) ->
        tail = []
        /\ outcome (slash_ticket sample_ticket_dialog ticket_command)
             (slack_env directory_slack no_network) fresh_world = Ok tt).
Proof.
  apply (slash_ticket_opens_dialog sample_ticket_dialog ticket_command
           (slack_env directory_slack no_network) fresh_world
           (VDict [("ok", VBool true);
                   ("user", VDict [("profile",
                                    VDict [("email", VStr "steve@example.com")])])])
           (VStr "steve@example.com"));
    reflexivity.
Defined.

Lemma slash_ticket_without_email_raises_witness :
  (KeyError = KeyError \/ KeyError = TypeError)
  /\ slash_ticket sample_ticket_dialog ticket_command
       (slack_env bare_profile_slack no_network) fresh_world
     = (Raise KeyError, log fresh_world (users_info_call ticket_command))
  /\ requests (slash_ticket sample_ticket_dialog ticket_command)
       (slack_env bare_profile_slack no_network) fresh_world
     = [users_info_call ticket_command].
Proof.
  apply (slash_ticket_without_email_raises sample_ticket_dialog ticket_command
           (slack_env bare_profile_slack no_network) fresh_world
           (VDict [("ok", VBool true);
                   ("user", VDict [("profile", VDict [])])])
           KeyError);
    reflexivity.
Defined.

Lemma slash_repeat_forwards_selection_witness :
  exists tail,
    requests (slash_repeat sample_repeat_messages (repeat_command "10-4"))
      calm_env fresh_world
    = (CHAT_POST_MESSAGE,
       VDict [("channel", VStr "C024BE91L"); ("text", VStr "10-4")]) :: tail
    /\ (tail = [] \/ tail = [fallback_call (repeat_command "10-4")])
    /\ (accepted calm_env []
          (CHAT_POST_MESSAGE,
           VDict [("channel", VStr "C024BE91L"); ("text", VStr "10-4")]) ->
        tail = []
        /\ outcome (slash_repeat sample_repeat_messages (repeat_command "10-4"))
             calm_env fresh_world = Ok tt).
Proof.
  apply (slash_repeat_forwards_selection sample_repeat_messages
           (repeat_command "10-4") calm_env fresh_world CHAT_POST_MESSAGE
           (VDict [("channel", VStr "C024BE91L"); ("text", VStr "10-4")])).
  reflexivity.
Defined.

Lemma slash_repeat_selection_failure_propagates_witness :
  slash_repeat sample_repeat_messages (repeat_command "") calm_env fresh_world
  = (Raise KeyError, fresh_world).
Proof.
  apply (slash_repeat_selection_failure_propagates sample_repeat_messages
           (repeat_command "") calm_env fresh_world KeyError);
    [reflexivity | discriminate].
Defined.

Lemma slash_here_unsized_body_raises_witness :
  TypeError = TypeError
  /\ slash_here "localhost" "8000" "secret" sample_here_messages here_command
       (env_with mods_null) fresh_world
     = (Raise TypeError, fresh_world).
Proof.
  apply (slash_here_unsized_body_raises "localhost" "8000" "secret"
           sample_here_messages here_command (env_with mods_null) fresh_world
           {| status := 200; json := Ok VNone |} VNone TypeError);
    solve [reflexivity | simpl; lia].
Defined.

Lemma slash_here_missing_ts_raises_witness :
  let roster :=
    (OTHER_METHOD "conversations.members",
     VDict [("channel", VStr "C024BE91L")]) in
  let first := here_first_call here_command (VStr "<@U2147483697> standup") in
  (KeyError = KeyError \/ KeyError = TypeError)
  /\ slash_here "localhost" "8000" "secret" sample_here_messages here_command
       (slack_env unstamped_slack mods_found) fresh_world
     = (Raise KeyError, log {| sent := [roster]; draws := 0 |} first)
  /\ requests
       (slash_here "localhost" "8000" "secret" sample_here_messages here_command)
       (slack_env unstamped_slack mods_found) fresh_world
     = [roster; first].
Proof.
  apply (slash_here_missing_ts_raises "localhost" "8000" "secret"
           sample_here_messages here_command
           (slack_env unstamped_slack mods_found) fresh_world
           {| status := 200;
              json := Ok (VList [VDict [("slack_id", VStr "U2147483697")]]) |}
           (VList [VDict [("slack_id", VStr "U2147483697")]]) 1
           (VStr "<@U2147483697> standup") (VStr "<@U1> <@U2>")
           {| sent := [(OTHER_METHOD "conversations.members",
                        VDict [("channel", VStr "C024BE91L")])];
              draws := 0 |}
           (VDict [("ok", VBool true)]) KeyError);
    solve [reflexivity | simpl; lia].
Defined.

Lemma slash_here_any_sized_body_authorizes_witness :
  let roster :=
    (OTHER_METHOD "conversations.members",
     VDict [("channel", VStr "C024BE91L")]) in
  exists tail,
    requests
      (slash_here "localhost" "8000" "secret" sample_here_messages here_command)
      (env_with mods_object) fresh_world
    = ([roster]
         ++ here_first_call here_command (VStr "<@U2147483697> standup")
         :: here_second_call here_command (VStr "<@U1> <@U2>")
              (VStr "1546300800.000200") :: tail)%list
    /\ (tail = [] \/ tail = [fallback_call here_command]).
Proof.
  apply (slash_here_any_sized_body_authorizes "localhost" "8000" "secret"
           sample_here_messages here_command (env_with mods_object) fresh_world
           {| status := 200;
              json := Ok (VDict [("detail", VStr "Not found.")]) |}
           (VDict [("detail", VStr "Not found.")]) 1
           (VStr "<@U2147483697> standup") (VStr "<@U1> <@U2>")
           {| sent := [(OTHER_METHOD "conversations.members",
                        VDict [("channel", VStr "C024BE91L")])];
              draws := 0 |}
           (VDict [("ok", VBool true); ("ts", VStr "1546300800.000200")])
           (VStr "1546300800.000200"));
    solve [reflexivity | simpl; lia].
Defined.

Lemma slash_here_refused_announcement_gets_fallback_witness :
  let roster :=
    (OTHER_METHOD "conversations.members",
     VDict [("channel", VStr "C024BE91L")]) in
  let first := here_first_call here_command (VStr "<@U2147483697> standup") in
  requests
    (slash_here "localhost" "8000" "secret" sample_here_messages here_command)
    (slack_env no_posting_slack mods_found) fresh_world
  = ([roster] ++ [first; fallback_call here_command])%list
  /\ outcome
       (slash_here "localhost" "8000" "secret" sample_here_messages here_command)
       (slack_env no_posting_slack mods_found) fresh_world
     = outcome_of_answer
         (answer (slack_env no_posting_slack mods_found)
            ([roster] ++ [first])%list (fallback_call here_command)).
Proof.
  apply (slash_here_refused_announcement_gets_fallback "localhost" "8000"
           "secret" sample_here_messages here_command
           (slack_env no_posting_slack mods_found) fresh_world
           {| status := 200;
              json := Ok (VList [VDict [("slack_id", VStr "U2147483697")]]) |}
           (VList [VDict [("slack_id", VStr "U2147483697")]]) 1
           (VStr "<@U2147483697> standup") (VStr "<@U1> <@U2>")
           {| sent := [(OTHER_METHOD "conversations.members",
                        VDict [("channel", VStr "C024BE91L")])];
              draws := 0 |});
    solve [reflexivity | simpl; lia].
Defined.

Lemma slash_lunch_sends_selection_witness :
  exists tail,
    requests
      (slash_lunch sample_LunchCommand sample_yelp_request sample_select_lunch
         lunch_command)
      (env_with yelp_found) fresh_world
    = (CHAT_POST_EPHEMERAL, VDict [("text", VStr "tacos")]) :: tail
    /\ (tail = [] \/ tail = [fallback_call lunch_command])
    /\ (accepted (env_with yelp_found) []
          (CHAT_POST_EPHEMERAL, VDict [("text", VStr "tacos")]) ->
        tail = []
        /\ outcome
             (slash_lunch sample_LunchCommand sample_yelp_request
                sample_select_lunch lunch_command)
             (env_with yelp_found) fresh_world = Ok tt).
Proof.
  apply (slash_lunch_sends_selection string sample_LunchCommand
           sample_yelp_request sample_select_lunch lunch_command
           (env_with yelp_found) fresh_world "tacos"
           {| url := "https://api.yelp.com/v3/businesses/search";
              params := [("term", "tacos")];
              headers := [("Authorization", "Bearer token")] |}
           {| status := 200;
              json := Ok (VDict [("businesses",
                                  VList [VDict [("name", VStr "Taqueria")]])]) |}
           (VDict [("businesses", VList [VDict [("name", VStr "Taqueria")]])])
           (VDict [("text", VStr "tacos")]) fresh_world);
    solve [reflexivity | simpl; lia].
Defined.

Lemma slash_lunch_session_failure_propagates_witness :
  slash_lunch sample_LunchCommand sample_yelp_request sample_select_lunch
    lunch_command calm_env fresh_world
  = (Raise ClientError, fresh_world).
Proof.
  apply (slash_lunch_session_failure_propagates string sample_LunchCommand
           sample_yelp_request sample_select_lunch lunch_command calm_env
           fresh_world "tacos"
           {| url := "https://api.yelp.com/v3/businesses/search";
              params := [("term", "tacos")];
              headers := [("Authorization", "Bearer token")] |}
           ClientError);
    [reflexivity | reflexivity | left; reflexivity | discriminate].
Defined.

Lemma slash_mentor_posts_form_to_user_witness :
  let services := VList [VStr "Services"; VStr "Name"] in
  let mentors := VList [VStr "Mentors"; VStr "Full Name"] in
  let skillsets := VList [VStr "Skillsets"; VStr "Skillset"] in
  let form :=
    mentor_call sample_mentor_attachments mentor_command services mentors
      skillsets in
  exists tail,
    requests
      (slash_mentor sample_get_all_records sample_mentor_attachments
         mentor_command)
      calm_env fresh_world
    = form :: tail
    /\ getitem (snd form) "channel" = Ok (VStr "U2147483697")
    /\ getitem (snd form) "as_user" = Ok (VBool true)
    /\ (tail = [] \/ tail = [fallback_call mentor_command])
    /\ (accepted calm_env [] form ->
        tail = []
        /\ outcome
             (slash_mentor sample_get_all_records sample_mentor_attachments
                mentor_command)
             calm_env fresh_world = Ok tt).
Proof.
  apply (slash_mentor_posts_form_to_user sample_get_all_records
           sample_mentor_attachments mentor_command calm_env fresh_world
           (VList [VStr "Services"; VStr "Name"])
           (VList [VStr "Mentors"; VStr "Full Name"])
           (VList [VStr "Skillsets"; VStr "Skillset"])
           fresh_world fresh_world fresh_world);
    reflexivity.
Defined.
